(** * CloudFront VPC Origin resource: lifecycle operations and the status wait

    A shallow embedding of [internal/service/cloudfront/vpc_origin.go].

    Go values are modelled as follows.
    - A pointer [*T] is an [option T]; [nil] is [None].
    - An [error] is an [option Err]; [nil] is [None].
    - An [interface{}] is a value of [any], tagged with its dynamic type.
    - A function that talks to the remote API runs in the monad [M], which
      threads a [World] (the log of API calls and a clock) and may panic.
    - The remote service is a [Client]: a deterministic environment whose
      answers may depend on every call made so far. *)

From Stdlib Require Import String List ZArith Bool Lia.
Import ListNotations.
Open Scope Z_scope.
Open Scope string_scope.
Open Scope list_scope.

Set Implicit Arguments.

(** ** Time *)

(** [time.Duration]: a signed count of nanoseconds. *)
Definition Duration := Z.

Definition Minute : Duration := 60 * 1000000000.

Definition deleteVPCOriginTimeout : Duration := 15 * Minute.
Definition updateVPCOriginTimeout : Duration := 15 * Minute.

(** [time.Time], as an instant on the same scale. *)
Definition Instant := Z.

(** ** Framework attribute values *)

(** A framework value ([types.String], [types.Int32], [timetypes.RFC3339],
    ...) is null, unknown (not yet computed) or known. *)
Inductive Value (A : Type) : Type :=
| Null
| Unknown
| Known (a : A).

Arguments Null {A}.
Arguments Unknown {A}.
Arguments Known {A} a.

(** [types.String.ValueString]: the known value, the empty string when the
    value is null or unknown. *)
Definition ValueString (v : Value string) : string :=
  match v with
  | Known s => s
  | Null | Unknown => EmptyString
  end.

(** ** The resource model (the structs at the end of the source file) *)

Record originSSLProtocolsModel := {
  Items : Value (list string);
  Quantity : Value Z
}.

Record vpcOriginEndpointConfigModel := {
  Arn : Value string;
  HTTPPort : Value Z;
  HTTPSPort : Value Z;
  Name : Value string;
  OriginProtocolPolicy : Value string;
  OriginSslProtocols : Value (list originSSLProtocolsModel)
}.

(** [timeouts.Value]: the durations written in the [timeouts] block. *)
Record timeouts_Value := {
  timeouts_create : option Duration;
  timeouts_update : option Duration;
  timeouts_delete : option Duration
}.

Record vpcOriginModel := {
  ARN : Value string;
  CreatedTime : Value Instant;
  Id : Value string;
  ETag : Value string;
  LastModifiedTime : Value Instant;
  Status : Value string;
  VpcOriginEndpointConfig : Value vpcOriginEndpointConfigModel;
  Tags : Value (list (string * string));
  Timeouts : timeouts_Value
}.

(** ** The remote API's types (declared by the AWS SDK) *)

Module awstypes.

Record VpcOriginEndpointConfig := {
  cfg_Arn : option string;
  cfg_HTTPPort : option Z;
  cfg_HTTPSPort : option Z;
  cfg_Name : option string;
  cfg_OriginProtocolPolicy : string;
  cfg_OriginSslProtocols : option (list string * option Z)
}.

(** The tags of a create request: [Tags{Items []Tag}]. *)
Record Tags := {
  Items : list (string * string)
}.

(** The object a probe reads; every field is a pointer. *)
Record VpcOrigin := {
  Arn : option string;
  CreatedTime : option Instant;
  Id : option string;
  LastModifiedTime : option Instant;
  Status : option string;
  Config : option VpcOriginEndpointConfig
}.

End awstypes.

Module cloudfront.

(** [Tags] is a pointer: the zero input has none. *)
Record CreateVpcOriginInput := {
  create_Config : option awstypes.VpcOriginEndpointConfig;
  create_Tags : option awstypes.Tags
}.

Record GetVpcOriginInput := {
  get_Id : option string
}.

Record UpdateVpcOriginInput := {
  update_Id : option string;
  update_IfMatch : option string;
  update_Config : option awstypes.VpcOriginEndpointConfig
}.

Record DeleteVpcOriginInput := {
  delete_Id : option string;
  delete_IfMatch : option string
}.

(** [CreateVpcOriginOutput], [GetVpcOriginOutput] and
    [UpdateVpcOriginOutput] are used by the source through the same two
    fields. *)
Record CreateVpcOriginOutput := {
  created_ETag : option string;
  created_VpcOrigin : option awstypes.VpcOrigin
}.

Record GetVpcOriginOutput := {
  got_ETag : option string;
  got_VpcOrigin : option awstypes.VpcOrigin
}.

Record UpdateVpcOriginOutput := {
  updated_ETag : option string;
  updated_VpcOrigin : option awstypes.VpcOrigin
}.

Record DeleteVpcOriginOutput := {}.

End cloudfront.

(** ** Errors *)

(** The classes of failure a remote call reports. *)
Inductive ErrorClass :=
| EntityNotFound
| AccessDenied
| InvalidArgument
| Throttling
| NetworkFailure.

Inductive Err :=
| APIError (class : ErrorClass) (message : string)
| NotFoundError
| UnexpectedStateError (state : string) (expected : list string)
| TimeoutError (lastState : string) (expected : list string)
| EmptyResultError.

Definition error := option Err.

(** [errs.IsA[*awstypes.EntityNotFound](err)]: a test on the error's type;
    false on a nil error. *)
Definition IsA_EntityNotFound (err : error) : bool :=
  match err with
  | Some (APIError EntityNotFound _) => true
  | _ => false
  end.

(** ** Interface values *)

(** A Go [interface{}] holding one of the values this file passes around. *)
Inductive any :=
| any_nil
| any_GetVpcOriginOutput (p : cloudfront.GetVpcOriginOutput)
| any_VpcOrigin (p : awstypes.VpcOrigin).

(** The type assertion [x.( *awstypes.VpcOrigin )] in its two-result form. *)
Definition assert_VpcOrigin (x : any) : option awstypes.VpcOrigin * bool :=
  match x with
  | any_VpcOrigin p => (Some p, true)
  | _ => (None, false)
  end.

(** [aws.ToString]: the pointed-to string, the empty string for nil. *)
Definition aws_ToString (p : option string) : string :=
  match p with
  | Some s => s
  | None => EmptyString
  end.

(** [aws.String]: a pointer to the given string. *)
Definition aws_String (s : string) : option string := Some s.

(** ** Diagnostics and managed state *)

(** Constants of the [names] and [create] packages are kept symbolic. *)
Inductive Text :=
| Literal (s : string)
| names_CloudFront
| names_AttrStatus.

Inductive Action :=
| ErrActionWaitingForCreation
| ErrActionWaitingForUpdate
| ErrActionWaitingForDeletion.

(** The summary line of a diagnostic, by the call that builds it. *)
Inductive Summary :=
| ProblemStandardMessage (service : Text) (action : Action) (resource : Text)
    (id : Value string) (gotError : Err)
| ReadingVPCOrigin (id : string)
| UpdatingEmptyResponse (id : string)
| ResourceNotFoundWarning
| FrameworkMessage (s : string).

Inductive Severity :=
| SeverityError
| SeverityWarning.

(** A diagnostic; [diag_detail] stands for the text of [err.Error()] of the
    error it was built from, when there is one. *)
Record Diagnostic := {
  diag_severity : Severity;
  diag_summary : Summary;
  diag_detail : option Err
}.

Definition Diagnostics := list Diagnostic.

Definition isError (d : Diagnostic) : bool :=
  match diag_severity d with
  | SeverityError => true
  | SeverityWarning => false
  end.

(** [diag.Diagnostics.HasError] *)
Definition HasError (ds : Diagnostics) : bool := existsb isError ds.

(** [fwdiag.NewResourceNotFoundWarningDiagnostic] *)
Definition NewResourceNotFoundWarningDiagnostic (e : Err) : Diagnostic :=
  {| diag_severity := SeverityWarning;
     diag_summary := ResourceNotFoundWarning;
     diag_detail := Some e |}.

(** The response of a lifecycle hook: the diagnostics gathered so far and
    the managed state ([None] once the resource has been removed from it).
    Create, Read and Update responses have this shape; Delete only uses the
    diagnostics. *)
Record Response := {
  resp_Diagnostics : Diagnostics;
  resp_State : option vpcOriginModel
}.

(** [response.Diagnostics.Append(ds...)] *)
Definition Append (response : Response) (ds : Diagnostics) : Response :=
  {| resp_Diagnostics := resp_Diagnostics response ++ ds;
     resp_State := resp_State response |}.

(** [response.Diagnostics.AddError(summary, err.Error())] for a non-nil
    [err]. *)
Definition AddError (response : Response) (summary : Summary) (e : Err)
  : Response :=
  Append response
    [{| diag_severity := SeverityError;
        diag_summary := summary;
        diag_detail := Some e |}].

(** [response.State.Set(ctx, &data)] *)
Definition State_Set (response : Response) (data : vpcOriginModel)
  : Response :=
  {| resp_Diagnostics := resp_Diagnostics response;
     resp_State := Some data |}.

(** [response.State.RemoveResource(ctx)] *)
Definition State_RemoveResource (response : Response) : Response :=
  {| resp_Diagnostics := resp_Diagnostics response;
     resp_State := None |}.

(** What [request.Plan.Get(ctx, &data)] or [request.State.Get(ctx, &data)]
    yields: the diagnostics of the decoding and the decoded model. *)
Record Decoded := {
  Get_diags : Diagnostics;
  Get_data : vpcOriginModel
}.

(** ** The world: remote calls and the clock *)

Inductive Call :=
| CallCreateVpcOrigin (input : cloudfront.CreateVpcOriginInput)
| CallGetVpcOrigin (input : cloudfront.GetVpcOriginInput)
| CallUpdateVpcOrigin (input : cloudfront.UpdateVpcOriginInput)
| CallDeleteVpcOrigin (input : cloudfront.DeleteVpcOriginInput).

(** [calls] lists the remote calls made so far, the most recent first. *)
Record World := {
  calls : list Call;
  clock : Instant
}.

(** The remote service. Each operation answers from its input and from the
    calls that came before, with the pair (output, err) of the Go client. *)
Record Client := {
  api_CreateVpcOrigin :
    list Call -> cloudfront.CreateVpcOriginInput ->
    option cloudfront.CreateVpcOriginOutput * error;
  api_GetVpcOrigin :
    list Call -> cloudfront.GetVpcOriginInput ->
    option cloudfront.GetVpcOriginOutput * error;
  api_UpdateVpcOrigin :
    list Call -> cloudfront.UpdateVpcOriginInput ->
    option cloudfront.UpdateVpcOriginOutput * error;
  api_DeleteVpcOrigin :
    list Call -> cloudfront.DeleteVpcOriginInput ->
    option cloudfront.DeleteVpcOriginOutput * error
}.

(** ** The monad of effectful Go code *)

Inductive PanicValue :=
| NilPointerDereference.

Inductive Outcome (A : Type) : Type :=
| Returned (a : A)
| Panicked (p : PanicValue).

Arguments Returned {A} a.
Arguments Panicked {A} p.

Definition M (A : Type) : Type := World -> Outcome A * World.

Definition ret {A} (a : A) : M A := fun w => (Returned a, w).

Definition bind {A B} (c : M A) (k : A -> M B) : M B :=
  fun w =>
    match c w with
    | (Returned a, w') => k a w'
    | (Panicked p, w') => (Panicked p, w')
    end.

Definition panic {A} (p : PanicValue) : M A := fun w => (Panicked p, w).

Declare Scope go_scope.
Delimit Scope go_scope with go.
Notation "x <- c ;; k" := (bind c (fun x => k))
  (at level 61, c at next level, right associativity) : go_scope.
Notation "' pat <- c ;; k" := (bind c (fun x => match x with pat => k end))
  (at level 61, pat pattern, c at next level, right associativity) : go_scope.
Notation "c ;; k" := (bind c (fun _ => k))
  (at level 61, right associativity) : go_scope.
Open Scope go_scope.

(** Reading through a pointer: a nil pointer panics. *)
Definition deref {A} (p : option A) : M A :=
  match p with
  | Some a => ret a
  | None => panic NilPointerDereference
  end.

(** Calling a method on an [error] value: a nil interface panics. *)
Definition nonNil (err : error) : M Err := deref err.

(** The world once a call has been logged, and once a delay has passed. *)
Definition logged (c : Call) (w : World) : World :=
  {| calls := c :: calls w; clock := clock w |}.

Definition later (d : Duration) (w : World) : World :=
  {| calls := calls w; clock := clock w + d |}.

(** [time.Sleep]-like delay: only the clock moves. *)
Definition sleep (d : Duration) : M unit :=
  fun w => (Returned tt, later d w).

Definition CreateVpcOrigin (conn : Client) (input : cloudfront.CreateVpcOriginInput)
  : M (option cloudfront.CreateVpcOriginOutput * error) :=
  fun w => (Returned (api_CreateVpcOrigin conn (calls w) input),
            logged (CallCreateVpcOrigin input) w).

Definition GetVpcOrigin (conn : Client) (input : cloudfront.GetVpcOriginInput)
  : M (option cloudfront.GetVpcOriginOutput * error) :=
  fun w => (Returned (api_GetVpcOrigin conn (calls w) input),
            logged (CallGetVpcOrigin input) w).

Definition UpdateVpcOrigin (conn : Client) (input : cloudfront.UpdateVpcOriginInput)
  : M (option cloudfront.UpdateVpcOriginOutput * error) :=
  fun w => (Returned (api_UpdateVpcOrigin conn (calls w) input),
            logged (CallUpdateVpcOrigin input) w).

Definition DeleteVpcOrigin (conn : Client) (input : cloudfront.DeleteVpcOriginInput)
  : M (option cloudfront.DeleteVpcOriginOutput * error) :=
  fun w => (Returned (api_DeleteVpcOrigin conn (calls w) input),
            logged (CallDeleteVpcOrigin input) w).

(** ** Helpers of the repository that the source file only calls *)

(** Modelled from the spec: [fwflex.StringToFramework] (package
    [internal/framework/flex]) is not part of the sources at hand. Section
    4.3 has fields of the managed state "overwritten from" a response, so
    the conversion carries the pointed-to value over: a nil pointer gives a
    null value, any other pointer the known value. *)
Definition StringToFramework (p : option string) : Value string :=
  match p with
  | Some s => Known s
  | None => Null
  end.

(** Modelled from the spec: [fwflex.TimeToFramework], the same conversion
    for the server-computed timestamps (section 4.3). *)
Definition TimeToFramework (p : option Instant) : Value Instant :=
  match p with
  | Some t => Known t
  | None => Null
  end.

(** [tfresource.NotFound] (package [internal/tfresource]) is not part of
    the sources at hand, and nothing at hand says which errors it takes
    for a missing resource: that is the parameter [recognises]. A nil
    error is not a not-found error. *)
Definition tfresource_NotFound (recognises : Err -> bool) (err : error)
  : bool :=
  match err with
  | Some e => recognises e
  | None => false
  end.

(** ** The poll-until-state engine *)

(** The engine is [retry.StateChangeConf.WaitForStateContext] of the plugin
    SDK, which the source file calls and does not define. *)

(** The configuration the source fills in. [Refresh] is the closure built by
    [VPCOriginStatus]: a probe returning (object, status, err). *)
Record StateChangeConf := {
  Pending : list string;
  Target : list string;
  Refresh : M (any * string * error);
  Timeout : Duration
}.

(** Modelled from the spec: the probe result of section 3, a tagged union. *)
Inductive ProbeResult :=
| ObjectAndStatus (object : any) (status : string)
| NotFoundSignal
| Error (err : Err).

(** How the Go triple of a refresh function reads as a probe result: an
    error is an error, a nil object without error is the not-found signal. *)
Definition probeResult (r : any * string * error) : ProbeResult :=
  match r with
  | (_, _, Some e) => Error e
  | (any_nil, _, None) => NotFoundSignal
  | (object, status, None) => ObjectAndStatus object status
  end.

(** Modelled from the spec: the error classes of section 7. Throttling and
    network failures are transient; every other class is surfaced at
    once. *)
Definition nonRetryable (e : Err) : bool :=
  match e with
  | APIError Throttling _ => false
  | APIError NetworkFailure _ => false
  | _ => true
  end.

Definition inb (s : string) (l : list string) : bool :=
  existsb (String.eqb s) l.

(** Modelled from the spec: what one probe decides, to resolve the wait or
    to keep polling (section 4.2, step 2). *)
Inductive Step :=
| Resolved (object : any) (err : error)
| KeepPolling (last : any) (lastStatus : string).

(** Modelled from the spec: step 2 of the algorithm of section 4.2, for one
    probe result; [last] and [lastStatus] are the last object and status
    seen. *)
Definition decide (pending target : list string) (last : any)
  (lastStatus : string) (r : ProbeResult) : Step :=
  match r with
  | NotFoundSignal =>
      match target with
      | [] => Resolved last None
      | _ :: _ => Resolved last (Some NotFoundError)
      end
  | Error e =>
      if nonRetryable e then Resolved last (Some e)
      else KeepPolling last lastStatus
  | ObjectAndStatus object status =>
      if inb status target then Resolved object None
      else if inb status pending then KeepPolling object status
      else Resolved object (Some (UnexpectedStateError status target))
  end.

(** ** Inputs built by the operations *)

(** [var input cloudfront.CreateVpcOriginInput]: the zero value. *)
Definition zeroCreateVpcOriginInput : cloudfront.CreateVpcOriginInput :=
  {| cloudfront.create_Config := None; cloudfront.create_Tags := None |}.

(** [if tags := getTagsIn(ctx); len(tags) > 0 { input.Tags.Items = tags }]:
    with a tag to write, the assignment goes through the pointer
    [input.Tags] and panics when that pointer is nil. *)
Definition withTags (tags : list (string * string))
  (input : cloudfront.CreateVpcOriginInput)
  : M cloudfront.CreateVpcOriginInput :=
  match tags with
  | [] => ret input
  | _ :: _ =>
      _ <- deref (cloudfront.create_Tags input) ;;
      ret {| cloudfront.create_Config := cloudfront.create_Config input;
             cloudfront.create_Tags := Some {| awstypes.Items := tags |} |}
  end.

(** The input of a status read keyed by [id]. *)
Definition statusRead (id : string) : cloudfront.GetVpcOriginInput :=
  {| cloudfront.get_Id := Some id |}.

Section Resource.

(** Modelled from the spec: the fixed delay between two polls (section
    4.2, step 4), a positive number of nanoseconds; its value is not
    given. *)
Variable PollInterval : positive.

(** Modelled from the spec: the number of inter-poll delays that fit before
    the deadline (section 4.2, steps 1 and 3). After [k] delays the elapsed
    time is [k * PollInterval], and the deadline is reached once that is at
    least the timeout. *)
Definition delaysWithin (timeout : Duration) : nat :=
  Z.to_nat ((timeout + Z.pos PollInterval - 1) / Z.pos PollInterval).

(** Modelled from the spec: steps 2 to 4 of section 4.2. Every round probes
    once; a round that does not resolve checks the deadline ([remaining]
    counts the delays still allowed) and either times out or sleeps for one
    interval and repeats. *)
Fixpoint pollLoop (conf : StateChangeConf) (remaining : nat) (last : any)
  (lastStatus : string) : M (any * error) :=
  r <- Refresh conf ;;
  match decide (Pending conf) (Target conf) last lastStatus (probeResult r) with
  | Resolved object err => ret (object, err)
  | KeepPolling last' lastStatus' =>
      match remaining with
      | O => ret (last', Some (TimeoutError lastStatus' (Target conf)))
      | S n => sleep (Z.pos PollInterval) ;; pollLoop conf n last' lastStatus'
      end
  end.

(** Modelled from the spec: [WaitUntil] of section 6, under the name the
    source calls it by. The deadline is fixed on entry (step 1). *)
Definition WaitForStateContext (conf : StateChangeConf) : M (any * error) :=
  pollLoop conf (delaysWithin (Timeout conf)) any_nil EmptyString.

(** ** The status prober and the two waits *)

Variable conn : Client.

Definition VPCOriginStatus (id : string) : M (any * string * error) :=
  let input := statusRead id in
  '(output, err) <- GetVpcOrigin conn input ;;
  if IsA_EntityNotFound err then ret (any_nil, EmptyString, None)
  else
    match err with
    | Some e => ret (any_nil, EmptyString, Some e)
    | None =>
        match output with
        | None => ret (any_nil, EmptyString, None)
        | Some o =>
            v <- deref (cloudfront.got_VpcOrigin o) ;;
            ret (any_GetVpcOriginOutput o,
                 aws_ToString (awstypes.Status v), None)
        end
    end.

Definition waitVPCOriginDeployed (id : string) (timeout : Duration)
  : M (option awstypes.VpcOrigin * error) :=
  let stateConf :=
    {| Pending := ["Deploying"];
       Target := ["Deployed"];
       Refresh := VPCOriginStatus id;
       Timeout := timeout |} in
  '(outputRaw, err) <- WaitForStateContext stateConf ;;
  match assert_VpcOrigin outputRaw with
  | (output, true) => ret (output, err)
  | (_, false) => ret (None, err)
  end.

Definition waitVPCOriginDeleted (id : string) (timeout : Duration)
  : M (option awstypes.VpcOrigin * error) :=
  let stateConf :=
    {| Pending := ["Deploying"];
       Target := [];
       Refresh := VPCOriginStatus id;
       Timeout := timeout |} in
  '(outputRaw, err) <- WaitForStateContext stateConf ;;
  match assert_VpcOrigin outputRaw with
  | (output, true) => ret (output, err)
  | (_, false) => ret (None, err)
  end.

Definition findVPCOriginByID (id : string)
  : M (option cloudfront.GetVpcOriginOutput * error) :=
  let input := {| cloudfront.get_Id := aws_String id |} in
  '(output, err) <- GetVpcOrigin conn input ;;
  match err with
  | Some e => ret (None, Some e)
  | None =>
      match output with
      | None => ret (None, Some EmptyResultError)
      | Some o =>
          match cloudfront.got_VpcOrigin o with
          | None => ret (None, Some EmptyResultError)
          | Some _ => ret (Some o, None)
          end
      end
  end.

(** ** Collaborators of the lifecycle operations

    The field mapping between the model and the API's shapes, the tags of
    the request and the configured timeouts are the framework's business;
    the operations only call them. *)

(** [fwflex.Expand(ctx, data, &input)] into a create input. *)
Variable ExpandCreate :
  vpcOriginModel -> cloudfront.CreateVpcOriginInput ->
  Diagnostics * cloudfront.CreateVpcOriginInput.

(** [fwflex.Expand(ctx, new, input)] into an update input. *)
Variable ExpandUpdate :
  vpcOriginModel -> cloudfront.UpdateVpcOriginInput ->
  Diagnostics * cloudfront.UpdateVpcOriginInput.

(** [fwflex.Flatten(ctx, output.VpcOrigin, &data)] *)
Variable Flatten :
  option awstypes.VpcOrigin -> vpcOriginModel -> Diagnostics * vpcOriginModel.

(** The errors [tfresource.NotFound] takes for a missing resource. *)
Variable recognises : Err -> bool.

(** [getTagsIn(ctx)] *)
Variable getTagsIn : list (string * string).

(** [r.CreateTimeout], [r.UpdateTimeout], [r.DeleteTimeout] *)
Variable CreateTimeout : timeouts_Value -> Duration.
Variable UpdateTimeout : timeouts_Value -> Duration.
Variable DeleteTimeout : timeouts_Value -> Duration.

(** ** The lifecycle operations *)

Definition Create (plan : Decoded) (response : Response) : M Response :=
  let data := Get_data plan in
  let response := Append response (Get_diags plan) in
  if HasError (resp_Diagnostics response) then ret response
  else
    let input := zeroCreateVpcOriginInput in
    let '(diags, input) := ExpandCreate data input in
    let response := Append response diags in
    input <- withTags getTagsIn input ;;
    '(output, err) <- CreateVpcOrigin conn input ;;
    let createTimeout := CreateTimeout (Timeouts data) in
    '(_, err) <- waitVPCOriginDeployed (ValueString (Id data)) createTimeout ;;
    match err with
    | Some e =>
        ret (AddError response
               (ProblemStandardMessage names_CloudFront
                  ErrActionWaitingForCreation (Literal "VPC Origin")
                  (Id data) e)
               e)
    | None =>
        o <- deref output ;;
        v <- deref (cloudfront.created_VpcOrigin o) ;;
        let data :=
          {| ARN := StringToFramework (awstypes.Arn v);
             CreatedTime := TimeToFramework (awstypes.CreatedTime v);
             Id := StringToFramework (awstypes.Id v);
             ETag := StringToFramework (cloudfront.created_ETag o);
             LastModifiedTime := TimeToFramework (awstypes.LastModifiedTime v);
             Status := StringToFramework (awstypes.Status v);
             VpcOriginEndpointConfig := VpcOriginEndpointConfig data;
             Tags := Tags data;
             Timeouts := Timeouts data |} in
        ret (State_Set response data)
    end.

Definition Read (state : Decoded) (response : Response) : M Response :=
  let data := Get_data state in
  let response := Append response (Get_diags state) in
  if HasError (resp_Diagnostics response) then ret response
  else
    let input := {| cloudfront.get_Id := aws_String (ValueString (Id data)) |} in
    '(output, err) <- GetVpcOrigin conn input ;;
    if tfresource_NotFound recognises err then
      e <- nonNil err ;;
      let response := Append response [NewResourceNotFoundWarningDiagnostic e] in
      ret (State_RemoveResource response)
    else
      match err with
      | Some e =>
          ret (AddError response (ReadingVPCOrigin (ValueString (Id data))) e)
      | None =>
          o <- deref output ;;
          let '(diags, data) := Flatten (cloudfront.got_VpcOrigin o) data in
          let response := Append response diags in
          if HasError (resp_Diagnostics response) then ret response
          else
            v <- deref (cloudfront.got_VpcOrigin o) ;;
            let data :=
              {| ARN := StringToFramework (awstypes.Arn v);
                 CreatedTime := TimeToFramework (awstypes.CreatedTime v);
                 Id := StringToFramework (awstypes.Id v);
                 ETag := StringToFramework (cloudfront.got_ETag o);
                 LastModifiedTime :=
                   TimeToFramework (awstypes.LastModifiedTime v);
                 Status := StringToFramework (awstypes.Status v);
                 VpcOriginEndpointConfig := VpcOriginEndpointConfig data;
                 Tags := Tags data;
                 Timeouts := Timeouts data |} in
            ret (State_Set response data)
      end.

Definition Update (state plan : Decoded) (response : Response) : M Response :=
  let old := Get_data state in
  let response := Append response (Get_diags state) in
  if HasError (resp_Diagnostics response) then ret response
  else
    let new := Get_data plan in
    let response := Append response (Get_diags plan) in
    if HasError (resp_Diagnostics response) then ret response
    else
      let input :=
        {| cloudfront.update_Id := aws_String (ValueString (Id new));
           cloudfront.update_IfMatch := aws_String (ValueString (ETag old));
           cloudfront.update_Config := None |} in
      let '(diags, input) := ExpandUpdate new input in
      let response := Append response diags in
      if HasError (resp_Diagnostics response) then ret response
      else
        '(output, err) <- UpdateVpcOrigin conn input ;;
        let updateTimeout := UpdateTimeout (Timeouts old) in
        '(_, err) <-
          waitVPCOriginDeployed (ValueString (Id old)) updateTimeout ;;
        match err with
        | Some e =>
            ret (AddError response
                   (ProblemStandardMessage names_CloudFront
                      ErrActionWaitingForUpdate (Literal "VPC Origin")
                      (Id old) e)
                   e)
        | None =>
            match output with
            | None =>
                e <- nonNil err ;;
                ret (AddError response
                       (UpdatingEmptyResponse (ValueString (Id old))) e)
            | Some o =>
                v <- deref (cloudfront.updated_VpcOrigin o) ;;
                let new :=
                  {| ARN := ARN new;
                     CreatedTime := TimeToFramework (awstypes.CreatedTime v);
                     Id := Id new;
                     ETag := StringToFramework (cloudfront.updated_ETag o);
                     LastModifiedTime :=
                       TimeToFramework (awstypes.LastModifiedTime v);
                     Status := StringToFramework (awstypes.Status v);
                     VpcOriginEndpointConfig := VpcOriginEndpointConfig new;
                     Tags := Tags new;
                     Timeouts := Timeouts new |} in
                ret (State_Set response new)
            end
        end.

Definition Delete (state : Decoded) (response : Response) : M Response :=
  let data := Get_data state in
  let response := Append response (Get_diags state) in
  if HasError (resp_Diagnostics response) then ret response
  else
    let input :=
      {| cloudfront.delete_Id := aws_String (ValueString (Id data));
         cloudfront.delete_IfMatch := aws_String (ValueString (ETag data)) |} in
    '(_, err) <- DeleteVpcOrigin conn input ;;
    let deleteTimeout := DeleteTimeout (Timeouts data) in
    '(_, err) <- waitVPCOriginDeleted (ValueString (Id data)) deleteTimeout ;;
    match err with
    | Some e =>
        ret (AddError response
               (ProblemStandardMessage (Literal "Cloudfront VPC Origin")
                  ErrActionWaitingForDeletion names_AttrStatus (Id data) e)
               e)
    | None => ret response
    end.

End Resource.

(** ** The merge of section 4.3, as the specification words it *)

(** The identity, the concurrency token and the server-computed timestamps
    and status of the state [st] are those of the probe result [o]. *)
Definition mergedFromProbe (st : vpcOriginModel)
  (o : cloudfront.GetVpcOriginOutput) : Prop :=
  exists v,
    cloudfront.got_VpcOrigin o = Some v
    /\ Id st = StringToFramework (awstypes.Id v)
    /\ ETag st = StringToFramework (cloudfront.got_ETag o)
    /\ CreatedTime st = TimeToFramework (awstypes.CreatedTime v)
    /\ LastModifiedTime st = TimeToFramework (awstypes.LastModifiedTime v)
    /\ Status st = StringToFramework (awstypes.Status v).

(** ** Concrete remotes and requests, for running the model *)

Module Scenario.

Definition interval : positive := 1000000000%positive.

Definition origin (status : string) : awstypes.VpcOrigin :=
  {| awstypes.Arn := Some "arn:aws:cloudfront::123456789012:vpcorigin/vo_1";
     awstypes.CreatedTime := Some 1700000000;
     awstypes.Id := Some "vo_1";
     awstypes.LastModifiedTime := Some 1700000000;
     awstypes.Status := Some status;
     awstypes.Config := None |}.

Definition got (etag status : string) : cloudfront.GetVpcOriginOutput :=
  {| cloudfront.got_ETag := Some etag;
     cloudfront.got_VpcOrigin := Some (origin status) |}.

Definition created (etag status : string) : cloudfront.CreateVpcOriginOutput :=
  {| cloudfront.created_ETag := Some etag;
     cloudfront.created_VpcOrigin := Some (origin status) |}.

Definition updated (etag status : string) : cloudfront.UpdateVpcOriginOutput :=
  {| cloudfront.updated_ETag := Some etag;
     cloudfront.updated_VpcOrigin := Some (origin status) |}.

(** The number of status reads among the calls made so far. *)
Fixpoint reads (l : list Call) : nat :=
  match l with
  | [] => O
  | CallGetVpcOrigin _ :: l' => S (reads l')
  | _ :: l' => reads l'
  end.

(** A remote whose mutating calls answer as given and whose successive
    status reads answer with [answers], then with [rest] for ever. *)
Definition remote
  (onCreate : option cloudfront.CreateVpcOriginOutput * error)
  (onUpdate : option cloudfront.UpdateVpcOriginOutput * error)
  (onDelete : option cloudfront.DeleteVpcOriginOutput * error)
  (answers : list (option cloudfront.GetVpcOriginOutput * error))
  (rest : option cloudfront.GetVpcOriginOutput * error) : Client :=
  {| api_CreateVpcOrigin := fun _ _ => onCreate;
     api_GetVpcOrigin := fun past _ => nth (reads past) answers rest;
     api_UpdateVpcOrigin := fun _ _ => onUpdate;
     api_DeleteVpcOrigin := fun _ _ => onDelete |}.

Definition denied : Err := APIError AccessDenied "access denied".
Definition gone : Err := APIError EntityNotFound "no such origin".

(** A remote on which only status reads matter. *)
Definition reading (answers : list (option cloudfront.GetVpcOriginOutput * error))
  (rest : option cloudfront.GetVpcOriginOutput * error) : Client :=
  remote (None, Some denied) (None, Some denied) (None, Some denied)
    answers rest.

(** A remote that accepts a create or an update, answering with the origin
    still deploying, and that reports it deployed on every later read. *)
Definition accepting : Client :=
  remote (Some (created "E1" "Deploying"), None)
    (Some (updated "E1" "Deploying"), None) (None, Some denied)
    [] (Some (got "E2" "Deployed"), None).

(** A remote that refuses every mutating call, with a nil output, and
    reports a deployed origin on every read. *)
Definition refusing : Client :=
  reading [] (Some (got "E2" "Deployed"), None).

Definition invalid : Err := APIError InvalidArgument "missing Id".

(** A remote that refuses every mutating call, refuses a status read that
    names no identity, and reports a deployed origin on any other read. *)
Definition strict : Client :=
  {| api_CreateVpcOrigin := fun _ _ => (None, Some denied);
     api_GetVpcOrigin :=
       fun _ input =>
         match cloudfront.get_Id input with
         | Some id =>
             if String.eqb id EmptyString then (None, Some invalid)
             else (Some (got "E2" "Deployed"), None)
         | None => (None, Some invalid)
         end;
     api_UpdateVpcOrigin := fun _ _ => (None, Some denied);
     api_DeleteVpcOrigin := fun _ _ => (None, Some denied) |}.

(** A remote that accepts an update of the origin created earlier,
    answering with the new ETag while the origin is deploying again, and
    that reports it deployed, under that ETag, on every later read. *)
Definition redeploying : Client :=
  remote (None, Some denied) (Some (updated "E2" "Deploying"), None)
    (None, Some denied) [] (Some (got "E2" "Deployed"), None).

(** A not-found test that knows the errors the provider itself builds, the
    wait's [NotFoundError] and the empty-result error, and none of the
    errors of the remote API. *)
Definition wrapped (e : Err) : bool :=
  match e with
  | NotFoundError | EmptyResultError => true
  | _ => false
  end.

(** A remote on which every mutating call returns neither output nor
    error, and every read reports a deployed origin. *)
Definition quiet : Client :=
  remote (None, None) (None, None) (None, None)
    [] (Some (got "E2" "Deployed"), None).

(** A remote that refuses every mutating call and reports the origin in a
    status the waits do not expect. *)
Definition broken : Client :=
  reading [] (Some (got "E1" "Failed"), None).

(** A remote that answers every read with neither output nor error. *)
Definition mute : Client := reading [] (None, None).

Definition noTimeouts : timeouts_Value :=
  {| timeouts_create := None; timeouts_update := None;
     timeouts_delete := None |}.

(** The plan of a Create: every computed attribute is still unknown. *)
Definition planned : vpcOriginModel :=
  {| ARN := Unknown; CreatedTime := Unknown; Id := Unknown; ETag := Unknown;
     LastModifiedTime := Unknown; Status := Unknown;
     VpcOriginEndpointConfig := Null; Tags := Null;
     Timeouts := noTimeouts |}.

(** The state of a resource created earlier. *)
Definition stored : vpcOriginModel :=
  {| ARN := Known "arn:aws:cloudfront::123456789012:vpcorigin/vo_1";
     CreatedTime := Known 1700000000; Id := Known "vo_1"; ETag := Known "E1";
     LastModifiedTime := Known 1700000000; Status := Known "Deployed";
     VpcOriginEndpointConfig := Null; Tags := Null;
     Timeouts := noTimeouts |}.

Definition decoded (data : vpcOriginModel) : Decoded :=
  {| Get_diags := []; Get_data := data |}.

Definition blank : Response :=
  {| resp_Diagnostics := []; resp_State := None |}.

Definition holding (data : vpcOriginModel) : Response :=
  {| resp_Diagnostics := []; resp_State := Some data |}.

Definition start : World := {| calls := []; clock := 0 |}.

Definition expandCreate (_ : vpcOriginModel)
  (input : cloudfront.CreateVpcOriginInput)
  : Diagnostics * cloudfront.CreateVpcOriginInput := ([], input).

Definition expandUpdate (_ : vpcOriginModel)
  (input : cloudfront.UpdateVpcOriginInput)
  : Diagnostics * cloudfront.UpdateVpcOriginInput := ([], input).

Definition flatten (_ : option awstypes.VpcOrigin) (data : vpcOriginModel)
  : Diagnostics * vpcOriginModel := ([], data).

Definition quarterHour (_ : timeouts_Value) : Duration := 15 * Minute.

End Scenario.

(** * Properties *)

Section Properties.

Variable PollInterval : positive.
Variable conn : Client.
Variable ExpandCreate :
  vpcOriginModel -> cloudfront.CreateVpcOriginInput ->
  Diagnostics * cloudfront.CreateVpcOriginInput.
Variable ExpandUpdate :
  vpcOriginModel -> cloudfront.UpdateVpcOriginInput ->
  Diagnostics * cloudfront.UpdateVpcOriginInput.
Variable Flatten :
  option awstypes.VpcOrigin -> vpcOriginModel -> Diagnostics * vpcOriginModel.
Variable recognises : Err -> bool.
Variable getTagsIn : list (string * string).
Variable CreateTimeout : timeouts_Value -> Duration.
Variable UpdateTimeout : timeouts_Value -> Duration.
Variable DeleteTimeout : timeouts_Value -> Duration.

Local Abbreviation probed id w := (logged (CallGetVpcOrigin (statusRead id)) w).
Local Abbreviation rested w := (later (Z.pos PollInterval) w).

(** ** One probe *)


(** A read that fails with the not-found class comes back as a nil object
    and no error. *)
Lemma VPCOriginStatus_not_found id w output err :
  api_GetVpcOrigin conn (calls w) (statusRead id) = (output, err) ->
  IsA_EntityNotFound err = true ->
  VPCOriginStatus conn id w
  = (Returned (any_nil, EmptyString, None), probed id w).
Proof.
  intros Hread Hclass.
  unfold VPCOriginStatus, bind, GetVpcOrigin.
  rewrite Hread, Hclass. reflexivity.
Qed.

(** A successful read comes back as the output itself, typed as a
    [*cloudfront.GetVpcOriginOutput], with the origin's status. *)
Lemma VPCOriginStatus_found id w o v :
  api_GetVpcOrigin conn (calls w) (statusRead id) = (Some o, None) ->
  cloudfront.got_VpcOrigin o = Some v ->
  VPCOriginStatus conn id w
  = (Returned (any_GetVpcOriginOutput o, aws_ToString (awstypes.Status v), None),
     probed id w).
Proof.
  intros Hread Hv.
  unfold VPCOriginStatus, bind, GetVpcOrigin.
  rewrite Hread. cbn. rewrite Hv. reflexivity.
Qed.

(** Whatever the read gives, a probe logs exactly its own call. *)
Lemma VPCOriginStatus_logs id w :
  snd (VPCOriginStatus conn id w) = probed id w.
Proof.
  unfold VPCOriginStatus, bind, GetVpcOrigin.
  destruct (api_GetVpcOrigin conn (calls w) (statusRead id)) as [output err].
  destruct (IsA_EntityNotFound err); [reflexivity|].
  destruct err as [e|]; [reflexivity|].
  destruct output as [o|]; [|reflexivity].
  destruct (cloudfront.got_VpcOrigin o); reflexivity.
Qed.

(** The object of a probe is nil or a [*cloudfront.GetVpcOriginOutput],
    never a [*awstypes.VpcOrigin]. *)
Lemma VPCOriginStatus_object id w object status err w' :
  VPCOriginStatus conn id w = (Returned (object, status, err), w') ->
  assert_VpcOrigin object = (None, false).
Proof.
  unfold VPCOriginStatus, bind, GetVpcOrigin.
  destruct (api_GetVpcOrigin conn (calls w) (statusRead id)) as [output e].
  destruct (IsA_EntityNotFound e).
  - intros H. inversion H. reflexivity.
  - destruct e as [e|].
    + intros H. inversion H. reflexivity.
    + destruct output as [o|].
      * destruct (cloudfront.got_VpcOrigin o); cbn; intros H;
          inversion H; reflexivity.
      * intros H. inversion H. reflexivity.
Qed.

(** ** The loop, one round at a time *)

Lemma pollLoop_round conf remaining last lastStatus w :
  pollLoop PollInterval conf remaining last lastStatus w
  = match Refresh conf w with
    | (Returned r, w') =>
        match decide (Pending conf) (Target conf) last lastStatus
                (probeResult r) with
        | Resolved object err => (Returned (object, err), w')
        | KeepPolling last' lastStatus' =>
            match remaining with
            | O => (Returned (last', Some (TimeoutError lastStatus' (Target conf))), w')
            | S n => pollLoop PollInterval conf n last' lastStatus' (rested w')
            end
        end
    | (Panicked p, w') => (Panicked p, w')
    end.
Proof.
  destruct remaining; cbn [pollLoop]; unfold bind;
    destruct (Refresh conf w) as [[r|p] w']; try reflexivity;
    destruct (decide _ _ _ _ _); try reflexivity.
Qed.




(** Each wait is the engine's answer with the object put through the type
    assertion. *)
Lemma waitVPCOriginDeployed_engine id timeout w :
  waitVPCOriginDeployed PollInterval conn id timeout w
  = match WaitForStateContext PollInterval
            {| Pending := ["Deploying"]; Target := ["Deployed"];
               Refresh := VPCOriginStatus conn id; Timeout := timeout |} w with
    | (Returned (outputRaw, err), w') =>
        (Returned (fst (assert_VpcOrigin outputRaw), err), w')
    | (Panicked p, w') => (Panicked p, w')
    end.
Proof.
  unfold waitVPCOriginDeployed, bind.
  destruct (WaitForStateContext _ _ w) as [[[outputRaw err]|p] w'];
    [destruct outputRaw|]; reflexivity.
Qed.

Lemma waitVPCOriginDeleted_engine id timeout w :
  waitVPCOriginDeleted PollInterval conn id timeout w
  = match WaitForStateContext PollInterval
            {| Pending := ["Deploying"]; Target := [];
               Refresh := VPCOriginStatus conn id; Timeout := timeout |} w with
    | (Returned (outputRaw, err), w') =>
        (Returned (fst (assert_VpcOrigin outputRaw), err), w')
    | (Panicked p, w') => (Panicked p, w')
    end.
Proof.
  unfold waitVPCOriginDeleted, bind.
  destruct (WaitForStateContext _ _ w) as [[[outputRaw err]|p] w'];
    [destruct outputRaw|]; reflexivity.
Qed.

(** ** The engine on failed reads *)


Lemma repeat_snoc (A : Type) (x : A) n l :
  repeat x n ++ x :: l = x :: repeat x n ++ l.
Proof.
  induction n as [|n IH]; cbn; [reflexivity|].
  rewrite IH. reflexivity.
Qed.



(** ** Disappearance *)

(** C5. In a delete-wait (empty target set), when the remote read of the
    first probe fails with the [EntityNotFound] class, the wait returns no
    error, and a nil object, after that single read. *)
Theorem delete_wait_succeeds_on_not_found :
  forall id timeout w output err,
    api_GetVpcOrigin conn (calls w) (statusRead id) = (output, err) ->
    IsA_EntityNotFound err = true ->
    waitVPCOriginDeleted PollInterval conn id timeout w
    = (Returned (None, None), probed id w).
Proof.
  intros id timeout w output err Hread Hclass.
  rewrite waitVPCOriginDeleted_engine. unfold WaitForStateContext.
  rewrite pollLoop_round. cbn [Refresh Pending Target].
  rewrite (VPCOriginStatus_not_found id w Hread Hclass).
  reflexivity.
Qed.

(** C6. In a wait with a non-empty target set, a probe whose remote read
    fails with the [EntityNotFound] class resolves the wait to the
    unexpected-disappearance error [NotFoundError], whatever was seen
    before and however much time is left; so does [waitVPCOriginDeployed],
    whose target set is ["Deployed"], on its first probe. *)
Theorem deploy_wait_fails_on_not_found :
  forall id w output err,
    api_GetVpcOrigin conn (calls w) (statusRead id) = (output, err) ->
    IsA_EntityNotFound err = true ->
    (forall conf remaining last lastStatus,
        Refresh conf = VPCOriginStatus conn id ->
        Target conf <> [] ->
        pollLoop PollInterval conf remaining last lastStatus w
        = (Returned (last, Some NotFoundError), probed id w))
    /\ (forall timeout,
           waitVPCOriginDeployed PollInterval conn id timeout w
           = (Returned (None, Some NotFoundError), probed id w)).
Proof.
  intros id w output err Hread Hclass.
  assert (Hloop : forall conf remaining last lastStatus,
             Refresh conf = VPCOriginStatus conn id ->
             Target conf <> [] ->
             pollLoop PollInterval conf remaining last lastStatus w
             = (Returned (last, Some NotFoundError), probed id w)).
  { intros conf remaining last lastStatus Hprober Htarget.
    rewrite pollLoop_round, Hprober.
    rewrite (VPCOriginStatus_not_found id w Hread Hclass).
    cbn [probeResult decide].
    destruct (Target conf); [contradiction|reflexivity]. }
  split; [exact Hloop|].
  intros timeout. rewrite waitVPCOriginDeployed_engine.
  unfold WaitForStateContext. rewrite Hloop; [reflexivity|reflexivity|].
  cbn. discriminate.
Qed.


(** ** What a wait leaves in the call log, and what object it returns *)

Lemma pollLoop_logs conf id :
  Refresh conf = VPCOriginStatus conn id ->
  forall remaining last lastStatus w,
  exists rest,
    calls (snd (pollLoop PollInterval conf remaining last lastStatus w))
    = rest ++ CallGetVpcOrigin (statusRead id) :: calls w.
Proof.
  intros Hprober.
  induction remaining as [|n IH]; intros last lastStatus w;
    rewrite pollLoop_round, Hprober;
    pose proof (VPCOriginStatus_logs id w) as Hlog;
    destruct (VPCOriginStatus conn id w) as [[r|p] w1]; cbn [snd] in Hlog;
    subst w1; try (exists []; reflexivity);
    destruct (decide _ _ _ _ _) as [o err|l s];
    try (exists []; reflexivity).
  destruct (IH l s (rested (probed id w))) as [rest Hrest].
  exists (rest ++ [CallGetVpcOrigin (statusRead id)]).
  rewrite Hrest. cbn [later logged calls].
  rewrite <- app_assoc. reflexivity.
Qed.

Lemma waitVPCOriginDeployed_logs id timeout w :
  exists rest,
    calls (snd (waitVPCOriginDeployed PollInterval conn id timeout w))
    = rest ++ CallGetVpcOrigin (statusRead id) :: calls w.
Proof.
  rewrite waitVPCOriginDeployed_engine. unfold WaitForStateContext.
  match goal with
  | |- context [pollLoop ?i ?c ?n ?l ?s ?x] =>
      destruct (@pollLoop_logs c id eq_refl n l s x)
        as [rest Hrest];
      destruct (pollLoop i c n l s x) as [[[raw err]|p] w1]
  end; exists rest; exact Hrest.
Qed.

Lemma waitVPCOriginDeleted_logs id timeout w :
  exists rest,
    calls (snd (waitVPCOriginDeleted PollInterval conn id timeout w))
    = rest ++ CallGetVpcOrigin (statusRead id) :: calls w.
Proof.
  rewrite waitVPCOriginDeleted_engine. unfold WaitForStateContext.
  match goal with
  | |- context [pollLoop ?i ?c ?n ?l ?s ?x] =>
      destruct (@pollLoop_logs c id eq_refl n l s x)
        as [rest Hrest];
      destruct (pollLoop i c n l s x) as [[[raw err]|p] w1]
  end; exists rest; exact Hrest.
Qed.

(** The engine hands back either the object it started from or the object
    of a probe; with [VPCOriginStatus] as prober neither passes the
    assertion to [*awstypes.VpcOrigin]. *)
Lemma decide_object pending target last lastStatus r :
  match decide pending target last lastStatus r with
  | Resolved object _ | KeepPolling object _ =>
      object = last \/ exists status, r = ObjectAndStatus object status
  end.
Proof.
  destruct r as [o s| |e]; cbn.
  - destruct (inb s target); [right; eauto|].
    destruct (inb s pending); right; eauto.
  - destruct target; left; reflexivity.
  - destruct (nonRetryable e); left; reflexivity.
Qed.

Lemma pollLoop_object conf id :
  Refresh conf = VPCOriginStatus conn id ->
  forall remaining last lastStatus w object err w',
    assert_VpcOrigin last = (None, false) ->
    pollLoop PollInterval conf remaining last lastStatus w
    = (Returned (object, err), w') ->
    assert_VpcOrigin object = (None, false).
Proof.
  intros Hprober.
  assert (Hstep : forall last lastStatus w r w1,
             assert_VpcOrigin last = (None, false) ->
             VPCOriginStatus conn id w = (Returned r, w1) ->
             match decide (Pending conf) (Target conf) last lastStatus
                     (probeResult r) with
             | Resolved o _ | KeepPolling o _ =>
                 assert_VpcOrigin o = (None, false)
             end).
  { intros last lastStatus w [[o s] e] w1 Hlast Hprobe.
    pose proof (VPCOriginStatus_object _ _ Hprobe) as Ho.
    pose proof (decide_object (Pending conf) (Target conf) last lastStatus
                  (probeResult (o, s, e))) as Hd.
    destruct (decide _ _ _ _ _) as [o' e'|o' s'];
      (destruct Hd as [->|[s'' Hr]]; [exact Hlast|]);
      (destruct o, e; cbn in Hr; try discriminate Hr; inversion Hr; subst;
       exact Ho). }
  induction remaining as [|n IH]; intros last lastStatus w object err w' Hlast;
    rewrite pollLoop_round, Hprober;
    destruct (VPCOriginStatus conn id w) as [[r|p] w1] eqn:Hprobe;
    try discriminate;
    pose proof (Hstep last lastStatus w r w1 Hlast Hprobe) as Hs;
    destruct (decide _ _ _ _ _) as [o e|l s];
    try (intros H; inversion H; subst; exact Hs).
  apply IH. exact Hs.
Qed.

(** [waitVPCOriginDeployed] returns a nil object in every run. *)
Lemma waitVPCOriginDeployed_object_nil id timeout w object err w' :
  waitVPCOriginDeployed PollInterval conn id timeout w
  = (Returned (object, err), w') ->
  object = None.
Proof.
  rewrite waitVPCOriginDeployed_engine. unfold WaitForStateContext.
  match goal with
  | |- context [pollLoop ?i ?c ?n ?l ?s ?x] =>
      pose proof (@pollLoop_object c id eq_refl n l s x) as Hobject;
      destruct (pollLoop i c n l s x) as [[[raw e]|p] w1]
  end; [|discriminate].
  intros H. inversion H; subst.
  rewrite (Hobject raw err w' eq_refl eq_refl). reflexivity.
Qed.


(** ** The lifecycle operations *)

Local Abbreviation create := (Create PollInterval conn ExpandCreate getTagsIn CreateTimeout).
Local Abbreviation update := (Update PollInterval conn ExpandUpdate UpdateTimeout).
Local Abbreviation delete := (Delete PollInterval conn DeleteTimeout).
Local Abbreviation read := (Read conn Flatten recognises).

(** The update input before [fwflex.Expand] fills in the rest. *)
Local Abbreviation updateInput old new :=
  {| cloudfront.update_Id := aws_String (ValueString (Id new));
     cloudfront.update_IfMatch := aws_String (ValueString (ETag old));
     cloudfront.update_Config := None |}.

Local Abbreviation deleteInput data :=
  {| cloudfront.delete_Id := aws_String (ValueString (Id data));
     cloudfront.delete_IfMatch := aws_String (ValueString (ETag data)) |}.

Lemma HasError_Append response ds :
  HasError (resp_Diagnostics (Append response ds)) = false ->
  HasError (resp_Diagnostics response) = false.
Proof.
  unfold HasError, Append. cbn. rewrite existsb_app.
  intros H. apply orb_false_iff in H. tauto.
Qed.

(** The tag step returns or panics; it leaves the world as it was. *)
Lemma withTags_world tags input w : snd (withTags tags input w) = w.
Proof.
  unfold withTags. destruct tags as [|t tags]; [reflexivity|].
  unfold bind. destruct (cloudfront.create_Tags input); reflexivity.
Qed.

(** Without a tag the input goes on unchanged; with one, the step needs
    the pointer [input.Tags]. *)
Lemma withTags_returns tags input w :
  (tags = [] \/ cloudfront.create_Tags input <> None) ->
  exists input', withTags tags input w = (Returned input', w).
Proof.
  unfold withTags. intros [->|Hptr]; [eexists; reflexivity|].
  destruct tags as [|t tags]; [eexists; reflexivity|].
  unfold bind.
  destruct (cloudfront.create_Tags input); [|contradiction].
  eexists. reflexivity.
Qed.

(** Create ends in the world left by the wait that starts right after the
    create call, whatever that call returned. *)
Lemma Create_world plan response w diags input0 input :
  HasError (resp_Diagnostics (Append response (Get_diags plan))) = false ->
  ExpandCreate (Get_data plan) zeroCreateVpcOriginInput = (diags, input0) ->
  withTags getTagsIn input0 w = (Returned input, w) ->
  snd (create plan response w)
  = snd (waitVPCOriginDeployed PollInterval conn
           (ValueString (Id (Get_data plan)))
           (CreateTimeout (Timeouts (Get_data plan)))
           (logged (CallCreateVpcOrigin input) w)).
Proof.
  intros Hdec Hexp Htags. unfold Create. rewrite Hdec, Hexp.
  unfold bind at 1. rewrite Htags.
  unfold bind at 1. unfold CreateVpcOrigin.
  destruct (api_CreateVpcOrigin conn (calls w) input)
    as [output cerr].
  unfold bind at 1.
  destruct (waitVPCOriginDeployed _ _ _ _ _) as [[[object err]|p] w1];
    [|reflexivity].
  destruct err as [e|]; [reflexivity|].
  destruct output as [o|]; [|reflexivity].
  cbn. unfold bind.
  destruct (cloudfront.created_VpcOrigin o); reflexivity.
Qed.

Lemma Update_world state plan response w diags input :
  HasError
    (resp_Diagnostics
       (Append (Append (Append response (Get_diags state)) (Get_diags plan))
          diags)) = false ->
  ExpandUpdate (Get_data plan) (updateInput (Get_data state) (Get_data plan))
  = (diags, input) ->
  snd (update state plan response w)
  = snd (waitVPCOriginDeployed PollInterval conn
           (ValueString (Id (Get_data state)))
           (UpdateTimeout (Timeouts (Get_data state)))
           (logged (CallUpdateVpcOrigin input) w)).
Proof.
  intros Hdec3 Hexp.
  pose proof (HasError_Append _ _ Hdec3) as Hdec2.
  pose proof (HasError_Append _ _ Hdec2) as Hdec1.
  unfold Update. rewrite Hdec1, Hdec2, Hexp, Hdec3.
  unfold bind at 1. unfold UpdateVpcOrigin.
  destruct (api_UpdateVpcOrigin conn (calls w) input) as [output uerr].
  unfold bind at 1.
  destruct (waitVPCOriginDeployed _ _ _ _ _) as [[[object err]|p] w1];
    [|reflexivity].
  destruct err as [e|]; [reflexivity|].
  destruct output as [o|]; [|reflexivity].
  unfold bind.
  destruct (cloudfront.updated_VpcOrigin o); reflexivity.
Qed.

Lemma Delete_world state response w :
  HasError (resp_Diagnostics (Append response (Get_diags state))) = false ->
  snd (delete state response w)
  = snd (waitVPCOriginDeleted PollInterval conn
           (ValueString (Id (Get_data state)))
           (DeleteTimeout (Timeouts (Get_data state)))
           (logged (CallDeleteVpcOrigin (deleteInput (Get_data state))) w)).
Proof.
  intros Hdec. unfold Delete. rewrite Hdec.
  unfold bind at 1. unfold DeleteVpcOrigin.
  destruct (api_DeleteVpcOrigin conn (calls w) _) as [output derr].
  unfold bind at 1.
  destruct (waitVPCOriginDeleted _ _ _ _ _) as [[[object err]|p] w1];
    [|reflexivity].
  destruct err as [e|]; reflexivity.
Qed.

(** C4. In Create, Update and Delete, once the mutating call is reached,
    the operation ends in the world left by the wait that was started right
    after that call, and the call log shows a status read after the
    mutating call. Nothing is assumed about what the mutating call
    returned: the wait runs when it failed, too. Update and Delete reach
    their call once the request has been decoded, and expanded, without
    error; Create reaches its call when, besides, the tag step has handed
    on the input (with a tag to write and no [Tags] in the input, Create
    panics before any remote call). *)
Theorem wait_follows_the_mutating_call :
  (forall plan response w diags input0 input,
      HasError (resp_Diagnostics (Append response (Get_diags plan))) = false ->
      ExpandCreate (Get_data plan) zeroCreateVpcOriginInput = (diags, input0) ->
      withTags getTagsIn input0 w = (Returned input, w) ->
      snd (create plan response w)
      = snd (waitVPCOriginDeployed PollInterval conn
               (ValueString (Id (Get_data plan)))
               (CreateTimeout (Timeouts (Get_data plan)))
               (logged (CallCreateVpcOrigin input) w))
      /\ exists rest,
          calls (snd (create plan response w))
          = rest
              ++ CallGetVpcOrigin (statusRead (ValueString (Id (Get_data plan))))
              :: CallCreateVpcOrigin input :: calls w)
  /\ (forall state plan response w diags input,
         HasError
           (resp_Diagnostics
              (Append
                 (Append (Append response (Get_diags state)) (Get_diags plan))
                 diags)) = false ->
         ExpandUpdate (Get_data plan)
           (updateInput (Get_data state) (Get_data plan)) = (diags, input) ->
         snd (update state plan response w)
         = snd (waitVPCOriginDeployed PollInterval conn
                  (ValueString (Id (Get_data state)))
                  (UpdateTimeout (Timeouts (Get_data state)))
                  (logged (CallUpdateVpcOrigin input) w))
         /\ exists rest,
             calls (snd (update state plan response w))
             = rest
                 ++ CallGetVpcOrigin
                      (statusRead (ValueString (Id (Get_data state))))
                 :: CallUpdateVpcOrigin input :: calls w)
  /\ (forall state response w,
         HasError (resp_Diagnostics (Append response (Get_diags state)))
         = false ->
         snd (delete state response w)
         = snd (waitVPCOriginDeleted PollInterval conn
                  (ValueString (Id (Get_data state)))
                  (DeleteTimeout (Timeouts (Get_data state)))
                  (logged
                     (CallDeleteVpcOrigin (deleteInput (Get_data state))) w))
         /\ exists rest,
             calls (snd (delete state response w))
             = rest
                 ++ CallGetVpcOrigin
                      (statusRead (ValueString (Id (Get_data state))))
                 :: CallDeleteVpcOrigin (deleteInput (Get_data state))
                 :: calls w).
Proof.
  split; [|split].
  - intros plan response w diags input0 input Hdec Hexp Htags.
    pose proof (@Create_world plan response w diags input0 input Hdec Hexp
                  Htags) as Hw.
    split; [exact Hw|]. rewrite Hw.
    apply waitVPCOriginDeployed_logs.
  - intros state plan response w diags input Hdec Hexp.
    pose proof (Update_world state plan response w Hdec Hexp) as Hw.
    split; [exact Hw|]. rewrite Hw.
    apply waitVPCOriginDeployed_logs.
  - intros state response w Hdec.
    pose proof (Delete_world state response w Hdec) as Hw.
    split; [exact Hw|]. rewrite Hw.
    apply waitVPCOriginDeleted_logs.
Qed.


(** C2, as the code has it. When the wait of a Create succeeds and the
    create call, once reached, returned an output with its origin, the
    state is written
    with ARN, identity, timestamps and status taken from the origin in the
    create call's output and the ETag from that output; the remaining
    attributes keep the values of the plan. When the wait of an Update
    succeeds and the update call returned an output with its origin, the
    state is written with timestamps and status taken from the origin in
    the update call's output and the ETag from that output; ARN, identity
    and the remaining attributes keep the values of the plan. In both, the
    object returned by the wait is not used. *)
Theorem state_is_merged_from_the_mutation_output :
  (forall plan response w diags input0 input o cerr v object w',
      HasError (resp_Diagnostics (Append response (Get_diags plan))) = false ->
      ExpandCreate (Get_data plan) zeroCreateVpcOriginInput = (diags, input0) ->
      withTags getTagsIn input0 w = (Returned input, w) ->
      api_CreateVpcOrigin conn (calls w) input = (Some o, cerr) ->
      cloudfront.created_VpcOrigin o = Some v ->
      waitVPCOriginDeployed PollInterval conn
        (ValueString (Id (Get_data plan)))
        (CreateTimeout (Timeouts (Get_data plan)))
        (logged (CallCreateVpcOrigin input) w)
      = (Returned (object, None), w') ->
      create plan response w
      = (Returned
           (State_Set (Append (Append response (Get_diags plan)) diags)
              {| ARN := StringToFramework (awstypes.Arn v);
                 CreatedTime := TimeToFramework (awstypes.CreatedTime v);
                 Id := StringToFramework (awstypes.Id v);
                 ETag := StringToFramework (cloudfront.created_ETag o);
                 LastModifiedTime :=
                   TimeToFramework (awstypes.LastModifiedTime v);
                 Status := StringToFramework (awstypes.Status v);
                 VpcOriginEndpointConfig :=
                   VpcOriginEndpointConfig (Get_data plan);
                 Tags := Tags (Get_data plan);
                 Timeouts := Timeouts (Get_data plan) |}),
         w'))
  /\ (forall state plan response w diags input o uerr v object w',
         HasError
           (resp_Diagnostics
              (Append
                 (Append (Append response (Get_diags state)) (Get_diags plan))
                 diags)) = false ->
         ExpandUpdate (Get_data plan)
           (updateInput (Get_data state) (Get_data plan)) = (diags, input) ->
         api_UpdateVpcOrigin conn (calls w) input = (Some o, uerr) ->
         cloudfront.updated_VpcOrigin o = Some v ->
         waitVPCOriginDeployed PollInterval conn
           (ValueString (Id (Get_data state)))
           (UpdateTimeout (Timeouts (Get_data state)))
           (logged (CallUpdateVpcOrigin input) w)
         = (Returned (object, None), w') ->
         update state plan response w
         = (Returned
              (State_Set
                 (Append
                    (Append (Append response (Get_diags state))
                       (Get_diags plan))
                    diags)
                 {| ARN := ARN (Get_data plan);
                    CreatedTime := TimeToFramework (awstypes.CreatedTime v);
                    Id := Id (Get_data plan);
                    ETag := StringToFramework (cloudfront.updated_ETag o);
                    LastModifiedTime :=
                      TimeToFramework (awstypes.LastModifiedTime v);
                    Status := StringToFramework (awstypes.Status v);
                    VpcOriginEndpointConfig :=
                      VpcOriginEndpointConfig (Get_data plan);
                    Tags := Tags (Get_data plan);
                    Timeouts := Timeouts (Get_data plan) |}),
            w')).
Proof.
  split.
  - intros plan response w diags input0 input o cerr v object w'
      Hdec Hexp Htags Hcreate Hv Hwait.
    unfold Create. rewrite Hdec, Hexp.
    unfold bind at 1. rewrite Htags.
    unfold bind at 1. unfold CreateVpcOrigin. rewrite Hcreate.
    unfold bind at 1. rewrite Hwait.
    cbn. unfold bind. rewrite Hv. reflexivity.
  - intros state plan response w diags input o uerr v object w'
      Hdec3 Hexp Hupdate Hv Hwait.
    pose proof (HasError_Append _ _ Hdec3) as Hdec2.
    pose proof (HasError_Append _ _ Hdec2) as Hdec1.
    unfold Update. rewrite Hdec1, Hdec2, Hexp, Hdec3.
    unfold bind at 1. unfold UpdateVpcOrigin. rewrite Hupdate.
    unfold bind at 1. rewrite Hwait.
    unfold bind. rewrite Hv. reflexivity.
Qed.

(** ** Read *)

(** C10, on the code. Read leaves it to [tfresource.NotFound] to tell a
    missing resource. In a Read whose request decoded without error and
    whose remote read fails with an error [e]: when the helper recognises
    [e], the resource is removed from the state and the only diagnostic
    added is the not-found warning, so the response carries no error; when
    it does not, one error diagnostic is added and the state of the
    response is left as it was. The status prober does not go through the
    helper: it takes an error of the [EntityNotFound] class for a missing
    resource by the error's type. So a Read whose remote read fails with
    that class removes the resource only if the helper recognises that
    error, too. *)
Theorem read_removes_what_the_helper_recognises :
  forall state response w output e,
    HasError (resp_Diagnostics (Append response (Get_diags state))) = false ->
    api_GetVpcOrigin conn (calls w)
      (statusRead (ValueString (Id (Get_data state)))) = (output, Some e) ->
    (exists response',
        read state response w
        = (Returned response',
           logged
             (CallGetVpcOrigin
                (statusRead (ValueString (Id (Get_data state)))))
             w)
        /\ if recognises e then
             resp_State response' = None
             /\ resp_Diagnostics response'
                = resp_Diagnostics response ++ Get_diags state
                    ++ [NewResourceNotFoundWarningDiagnostic e]
             /\ HasError (resp_Diagnostics response') = false
           else
             resp_State response' = resp_State response
             /\ resp_Diagnostics response'
                = resp_Diagnostics response ++ Get_diags state
                    ++ [{| diag_severity := SeverityError;
                           diag_summary :=
                             ReadingVPCOrigin
                               (ValueString (Id (Get_data state)));
                           diag_detail := Some e |}]
             /\ HasError (resp_Diagnostics response') = true)
    /\ (IsA_EntityNotFound (Some e) = true ->
        VPCOriginStatus conn (ValueString (Id (Get_data state))) w
        = (Returned (any_nil, EmptyString, None),
           logged
             (CallGetVpcOrigin
                (statusRead (ValueString (Id (Get_data state)))))
             w)).
Proof.
  intros state response w output e Hdec Hread. split.
  - unfold Read. rewrite Hdec.
    unfold bind at 1. unfold GetVpcOrigin.
    change {| cloudfront.get_Id :=
                aws_String (ValueString (Id (Get_data state))) |}
      with (statusRead (ValueString (Id (Get_data state)))).
    rewrite Hread. cbn [tfresource_NotFound].
    destruct (recognises e).
    + eexists. split; [reflexivity|].
      cbn [State_RemoveResource Append resp_State resp_Diagnostics].
      split; [reflexivity|]. rewrite <- app_assoc. split; [reflexivity|].
      rewrite app_assoc. unfold HasError in *. rewrite existsb_app.
      cbn [Append resp_Diagnostics] in Hdec. rewrite Hdec. reflexivity.
    + eexists. split; [reflexivity|].
      cbn [AddError Append resp_State resp_Diagnostics].
      split; [reflexivity|]. rewrite <- app_assoc. split; [reflexivity|].
      unfold HasError. rewrite !existsb_app. cbn.
      rewrite !orb_true_r. reflexivity.
  - intros Hclass.
    apply (@VPCOriginStatus_not_found (ValueString (Id (Get_data state))) w
             output (Some e) Hread Hclass).
Qed.

End Properties.

(** * Runs on concrete remotes *)

Import Scenario.


Lemma delete_wait_succeeds_on_not_found_witness :
  let conn := reading [] (None, Some gone) in
  api_GetVpcOrigin conn (calls start) (statusRead "vo_1") = (None, Some gone)
  /\ IsA_EntityNotFound (Some gone) = true
  /\ waitVPCOriginDeleted interval conn "vo_1" (15 * Minute) start
     = (Returned (None, None),
        logged (CallGetVpcOrigin (statusRead "vo_1")) start).
Proof.
  cbv zeta. repeat (split; [reflexivity|]).
  exact (@delete_wait_succeeds_on_not_found interval
           (reading [] (None, Some gone)) "vo_1" (15 * Minute) start
           None (Some gone) eq_refl eq_refl).
Defined.

Lemma deploy_wait_fails_on_not_found_witness :
  let conn := reading [] (None, Some gone) in
  api_GetVpcOrigin conn (calls start) (statusRead "vo_1") = (None, Some gone)
  /\ IsA_EntityNotFound (Some gone) = true
  /\ waitVPCOriginDeployed interval conn "vo_1" (15 * Minute) start
     = (Returned (None, Some NotFoundError),
        logged (CallGetVpcOrigin (statusRead "vo_1")) start).
Proof.
  cbv zeta. repeat (split; [reflexivity|]).
  exact (proj2
           (@deploy_wait_fails_on_not_found interval
              (reading [] (None, Some gone)) "vo_1" start None (Some gone)
              eq_refl eq_refl)
           (15 * Minute)).
Defined.

(** A Create whose create call is refused still probes the status, by the
    identity of the plan; so does a Delete whose delete call is refused,
    by the identity of the state. *)
Lemma wait_follows_the_mutating_call_witness :
  (HasError (resp_Diagnostics (Append blank (Get_diags (decoded planned))))
   = false
   /\ expandCreate planned zeroCreateVpcOriginInput
      = ([], zeroCreateVpcOriginInput)
   /\ withTags [] zeroCreateVpcOriginInput start
      = (Returned zeroCreateVpcOriginInput, start)
   /\ api_CreateVpcOrigin strict (calls start) zeroCreateVpcOriginInput
      = (None, Some denied)
   /\ exists rest,
       calls
         (snd (Create interval strict expandCreate [] quarterHour
                 (decoded planned) blank start))
       = rest
           ++ CallGetVpcOrigin (statusRead EmptyString)
           :: CallCreateVpcOrigin zeroCreateVpcOriginInput :: calls start)
  /\ (HasError
        (resp_Diagnostics
           (Append (holding stored) (Get_diags (decoded stored))))
      = false
      /\ api_DeleteVpcOrigin strict (calls start)
           {| cloudfront.delete_Id := Some "vo_1";
              cloudfront.delete_IfMatch := Some "E1" |}
         = (None, Some denied)
      /\ exists rest,
          calls
            (snd (Delete interval strict quarterHour (decoded stored)
                    (holding stored) start))
          = rest
              ++ CallGetVpcOrigin (statusRead "vo_1")
              :: CallDeleteVpcOrigin
                   {| cloudfront.delete_Id := Some "vo_1";
                      cloudfront.delete_IfMatch := Some "E1" |}
              :: calls start).
Proof.
  split; repeat (split; [reflexivity|]).
  - exact (proj2
             (proj1
                (@wait_follows_the_mutating_call interval strict
                   expandCreate expandUpdate [] quarterHour quarterHour
                   quarterHour)
                (decoded planned) blank start [] zeroCreateVpcOriginInput
                zeroCreateVpcOriginInput eq_refl eq_refl eq_refl)).
  - exact (proj2
             (proj2
                (proj2
                   (@wait_follows_the_mutating_call interval strict
                      expandCreate expandUpdate [] quarterHour quarterHour
                      quarterHour))
                (decoded stored) (holding stored) start eq_refl)).
Defined.

Lemma state_is_merged_from_the_mutation_output_witness :
  HasError
    (resp_Diagnostics
       (Append
          (Append (Append (holding stored) (Get_diags (decoded stored)))
             (Get_diags (decoded stored)))
          []))
  = false
  /\ api_UpdateVpcOrigin redeploying (calls start)
       {| cloudfront.update_Id := Some "vo_1";
          cloudfront.update_IfMatch := Some "E1";
          cloudfront.update_Config := None |}
     = (Some (updated "E2" "Deploying"), None)
  /\ waitVPCOriginDeployed interval redeploying "vo_1" (15 * Minute)
       (logged
          (CallUpdateVpcOrigin
             {| cloudfront.update_Id := Some "vo_1";
                cloudfront.update_IfMatch := Some "E1";
                cloudfront.update_Config := None |})
          start)
     = (Returned (None, None),
        logged (CallGetVpcOrigin (statusRead "vo_1"))
          (logged
             (CallUpdateVpcOrigin
                {| cloudfront.update_Id := Some "vo_1";
                   cloudfront.update_IfMatch := Some "E1";
                   cloudfront.update_Config := None |})
             start))
  /\ Update interval redeploying expandUpdate quarterHour (decoded stored)
       (decoded stored) (holding stored) start
     = (Returned
          (holding
             {| ARN := ARN stored;
                CreatedTime := Known 1700000000;
                Id := Known "vo_1";
                ETag := Known "E2";
                LastModifiedTime := Known 1700000000;
                Status := Known "Deploying";
                VpcOriginEndpointConfig := Null;
                Tags := Null;
                Timeouts := noTimeouts |}),
        logged (CallGetVpcOrigin (statusRead "vo_1"))
          (logged
             (CallUpdateVpcOrigin
                {| cloudfront.update_Id := Some "vo_1";
                   cloudfront.update_IfMatch := Some "E1";
                   cloudfront.update_Config := None |})
             start)).
Proof.
  repeat (split; [reflexivity|]).
  exact (proj2
           (@state_is_merged_from_the_mutation_output interval redeploying
              expandCreate expandUpdate [] quarterHour quarterHour)
           (decoded stored) (decoded stored) (holding stored) start []
           {| cloudfront.update_Id := Some "vo_1";
              cloudfront.update_IfMatch := Some "E1";
              cloudfront.update_Config := None |}
           (updated "E2" "Deploying") None (origin "Deploying") None _
           eq_refl eq_refl eq_refl eq_refl eq_refl).
Defined.

(** C2, as stated, fails. Update runs on the origin held in the state
    against a remote that accepts the update call while the origin is
    deploying again and reports it deployed on the one probe of the wait.
    The wait succeeds, and the state that Update writes has the status of
    the update call's output, "Deploying", not the status the probe
    read. *)
Lemma update_state_is_not_merged_from_the_probe :
  exists response st w,
    Update interval redeploying expandUpdate quarterHour (decoded stored)
      (decoded stored) (holding stored) start = (Returned response, w)
    /\ waitVPCOriginDeployed interval redeploying
         (ValueString (Id stored)) (quarterHour (Timeouts stored))
         (logged
            (CallUpdateVpcOrigin
               {| cloudfront.update_Id := Some "vo_1";
                  cloudfront.update_IfMatch := Some "E1";
                  cloudfront.update_Config := None |})
            start)
       = (Returned (None, None), w)
    /\ calls w
       = [CallGetVpcOrigin (statusRead "vo_1");
          CallUpdateVpcOrigin
            {| cloudfront.update_Id := Some "vo_1";
               cloudfront.update_IfMatch := Some "E1";
               cloudfront.update_Config := None |}]
    /\ api_GetVpcOrigin redeploying
         [CallUpdateVpcOrigin
            {| cloudfront.update_Id := Some "vo_1";
               cloudfront.update_IfMatch := Some "E1";
               cloudfront.update_Config := None |}]
         (statusRead "vo_1")
       = (Some (got "E2" "Deployed"), None)
    /\ resp_State response = Some st
    /\ Status st = Known "Deploying"
    /\ ~ mergedFromProbe st (got "E2" "Deployed").
Proof.
  eexists. eexists. eexists.
  split; [vm_compute; reflexivity|].
  repeat (split; [reflexivity|]).
  intros [v [Hv [_ [_ [_ [_ Hstatus]]]]]].
  vm_compute in Hv. inversion Hv; subst v.
  vm_compute in Hstatus. discriminate Hstatus.
Qed.

(** C3, on the code. Create runs with a plan whose identity is still
    unknown against a remote whose create call assigns the identity "vo_1".
    The one status read of the wait is keyed by the empty string, the
    [ValueString] of the plan's identity, and not by "vo_1". *)
Theorem create_wait_probes_the_plan_identity :
  fst (api_CreateVpcOrigin accepting (calls start) zeroCreateVpcOriginInput)
  = Some (created "E1" "Deploying")
  /\ awstypes.Id (origin "Deploying") = Some "vo_1"
  /\ Id planned = Unknown
  /\ calls
       (snd (Create interval accepting expandCreate [] quarterHour
               (decoded planned) blank start))
     = [CallGetVpcOrigin (statusRead EmptyString);
        CallCreateVpcOrigin zeroCreateVpcOriginInput].
Proof. repeat split; vm_compute; reflexivity. Qed.

(** C7, on the code. [waitVPCOriginDeployed] probes a remote that reports
    the status "Failed". The engine resolves after that single read with an
    unexpected-state error and the object it read; the wait returns the
    error with a nil object, because the object is a
    [*cloudfront.GetVpcOriginOutput] and the wait asserts a
    [*awstypes.VpcOrigin]. *)
Theorem unexpected_state_loses_the_object :
  let conn := reading [] (Some (got "E1" "Failed"), None) in
  WaitForStateContext interval
    {| Pending := ["Deploying"]; Target := ["Deployed"];
       Refresh := VPCOriginStatus conn "vo_1"; Timeout := 15 * Minute |} start
  = (Returned
       (any_GetVpcOriginOutput (got "E1" "Failed"),
        Some (UnexpectedStateError "Failed" ["Deployed"])),
     logged (CallGetVpcOrigin (statusRead "vo_1")) start)
  /\ waitVPCOriginDeployed interval conn "vo_1" (15 * Minute) start
     = (Returned (None, Some (UnexpectedStateError "Failed" ["Deployed"])),
        logged (CallGetVpcOrigin (statusRead "vo_1")) start).
Proof. split; vm_compute; reflexivity. Qed.

(** C8. There is a run of Create in which the create call fails and
    returns a nil output, the wait succeeds, and Create then panics on a
    nil pointer: no diagnostic about the failed create call is returned. *)
Theorem create_panics_after_failed_create_call :
  exists conn plan response w e w',
    api_CreateVpcOrigin conn (calls w) zeroCreateVpcOriginInput
    = (None, Some e)
    /\ waitVPCOriginDeployed interval conn
         (ValueString (Id (Get_data plan)))
         (quarterHour (Timeouts (Get_data plan)))
         (logged (CallCreateVpcOrigin zeroCreateVpcOriginInput) w)
       = (Returned (None, None), w')
    /\ Create interval conn expandCreate [] quarterHour plan response w
       = (Panicked NilPointerDereference, w').
Proof.
  exists refusing, (decoded stored), blank, start, denied.
  eexists. repeat split; vm_compute; reflexivity.
Qed.

(** C9. There is a run of Update in which the update call returns a nil
    output, the wait succeeds, which leaves the error variable nil, and
    Update then reaches the empty-response branch and panics calling
    [Error] on the nil error: no diagnostic is returned. *)
Theorem update_panics_on_empty_response :
  exists conn state plan response w input uerr w',
    expandUpdate (Get_data plan)
      {| cloudfront.update_Id := aws_String (ValueString (Id (Get_data plan)));
         cloudfront.update_IfMatch :=
           aws_String (ValueString (ETag (Get_data state)));
         cloudfront.update_Config := None |} = ([], input)
    /\ api_UpdateVpcOrigin conn (calls w) input = (None, uerr)
    /\ waitVPCOriginDeployed interval conn
         (ValueString (Id (Get_data state)))
         (quarterHour (Timeouts (Get_data state)))
         (logged (CallUpdateVpcOrigin input) w)
       = (Returned (None, None), w')
    /\ nonNil (None : error) w' = (Panicked NilPointerDereference, w')
    /\ Update interval conn expandUpdate quarterHour state plan response w
       = (Panicked NilPointerDereference, w').
Proof.
  exists refusing, (decoded stored), (decoded stored), (holding stored), start.
  eexists. eexists. eexists.
  repeat split; vm_compute; reflexivity.
Qed.

(** With a helper that knows only the provider's own not-found errors, a
    Read whose remote read fails with the [EntityNotFound] class reports
    an error and keeps the state, while the prober takes the same answer
    for a missing resource. *)
Lemma read_removes_what_the_helper_recognises_witness :
  let conn := reading [] (None, Some gone) in
  HasError
    (resp_Diagnostics (Append (holding stored) (Get_diags (decoded stored))))
  = false
  /\ api_GetVpcOrigin conn (calls start) (statusRead "vo_1")
     = (None, Some gone)
  /\ IsA_EntityNotFound (Some gone) = true
  /\ wrapped gone = false
  /\ exists response',
      Read conn flatten wrapped (decoded stored) (holding stored) start
      = (Returned response',
         logged (CallGetVpcOrigin (statusRead "vo_1")) start)
      /\ resp_State response' = Some stored
      /\ resp_Diagnostics response'
         = [{| diag_severity := SeverityError;
               diag_summary := ReadingVPCOrigin "vo_1";
               diag_detail := Some gone |}]
      /\ HasError (resp_Diagnostics response') = true.
Proof.
  cbv zeta. repeat (split; [reflexivity|]).
  exact (proj1
           (@read_removes_what_the_helper_recognises
              (reading [] (None, Some gone)) flatten wrapped (decoded stored)
              (holding stored) start None gone eq_refl eq_refl)).
Defined.

(** * Further properties of the resource *)

Section Coverage.

Variable PollInterval : positive.
Variable conn : Client.
Variable ExpandCreate :
  vpcOriginModel -> cloudfront.CreateVpcOriginInput ->
  Diagnostics * cloudfront.CreateVpcOriginInput.
Variable ExpandUpdate :
  vpcOriginModel -> cloudfront.UpdateVpcOriginInput ->
  Diagnostics * cloudfront.UpdateVpcOriginInput.
Variable Flatten :
  option awstypes.VpcOrigin -> vpcOriginModel -> Diagnostics * vpcOriginModel.
Variable recognises : Err -> bool.
Variable getTagsIn : list (string * string).
Variable CreateTimeout : timeouts_Value -> Duration.
Variable UpdateTimeout : timeouts_Value -> Duration.
Variable DeleteTimeout : timeouts_Value -> Duration.

Local Abbreviation create := (Create PollInterval conn ExpandCreate getTagsIn CreateTimeout).
Local Abbreviation update := (Update PollInterval conn ExpandUpdate UpdateTimeout).
Local Abbreviation delete := (Delete PollInterval conn DeleteTimeout).
Local Abbreviation read := (Read conn Flatten recognises).
Local Abbreviation deployed := (waitVPCOriginDeployed PollInterval conn).
Local Abbreviation deleted := (waitVPCOriginDeleted PollInterval conn).
Local Abbreviation statusCall id := (CallGetVpcOrigin (statusRead id)).

(** ** The calls of a wait *)

(** A wait makes status reads and nothing else: one read per round, one
    interval of sleep between two rounds, at most as many delays as fit
    before the deadline. *)
Lemma pollLoop_reads conf id :
  Refresh conf = VPCOriginStatus conn id ->
  forall remaining last lastStatus w,
  exists delays,
    (delays <= remaining)%nat
    /\ snd (pollLoop PollInterval conf remaining last lastStatus w)
       = {| calls := repeat (statusCall id) (S delays) ++ calls w;
            clock := clock w + Z.of_nat delays * Z.pos PollInterval |}.
Proof.
  intros Hprober.
  assert (Hone : forall w,
             logged (statusCall id) w
             = {| calls := repeat (statusCall id) 1 ++ calls w;
                  clock := clock w + Z.of_nat 0 * Z.pos PollInterval |}).
  { intros w. unfold logged. cbn [repeat app Z.of_nat].
    rewrite Z.mul_0_l, Z.add_0_r. reflexivity. }
  induction remaining as [|n IH]; intros last lastStatus w;
    rewrite pollLoop_round, Hprober;
    pose proof (@VPCOriginStatus_logs conn id w) as Hlog;
    destruct (VPCOriginStatus conn id w) as [[r|p] w1]; cbn [snd] in Hlog;
    subst w1;
    try (exists O; split; [lia|apply Hone]);
    destruct (decide _ _ _ _ _) as [o err|l s];
    try (exists O; split; [lia|apply Hone]).
  destruct (IH l s (later (Z.pos PollInterval) (logged (statusCall id) w)))
    as [delays [Hle Hw]].
  exists (S delays). split; [lia|].
  rewrite Hw. cbn [later logged calls clock].
  rewrite repeat_snoc. f_equal.
  rewrite Nat2Z.inj_succ. lia.
Qed.

Lemma waitVPCOriginDeployed_reads id timeout w :
  exists delays,
    (delays <= delaysWithin PollInterval timeout)%nat
    /\ snd (deployed id timeout w)
       = {| calls := repeat (statusCall id) (S delays) ++ calls w;
            clock := clock w + Z.of_nat delays * Z.pos PollInterval |}.
Proof.
  rewrite waitVPCOriginDeployed_engine. unfold WaitForStateContext.
  match goal with
  | |- context [pollLoop ?i ?c ?n ?l ?s ?x] =>
      destruct (@pollLoop_reads c id eq_refl n l s x) as [delays [Hle Hw]];
      destruct (pollLoop i c n l s x) as [[[raw err]|p] w1]
  end; exists delays; split; assumption.
Qed.

Lemma waitVPCOriginDeleted_reads id timeout w :
  exists delays,
    (delays <= delaysWithin PollInterval timeout)%nat
    /\ snd (deleted id timeout w)
       = {| calls := repeat (statusCall id) (S delays) ++ calls w;
            clock := clock w + Z.of_nat delays * Z.pos PollInterval |}.
Proof.
  rewrite waitVPCOriginDeleted_engine. unfold WaitForStateContext.
  match goal with
  | |- context [pollLoop ?i ?c ?n ?l ?s ?x] =>
      destruct (@pollLoop_reads c id eq_refl n l s x) as [delays [Hle Hw]];
      destruct (pollLoop i c n l s x) as [[[raw err]|p] w1]
  end; exists delays; split; assumption.
Qed.


(** ** The calls of the lifecycle operations *)

(** X1. Create with a plan that does not decode returns the diagnostics
    and makes no remote call. With a tag to write and no [Tags] in the
    expanded input, it panics on the nil pointer, again without any remote
    call. Otherwise it makes exactly one [CreateVpcOrigin] call, then only
    status reads keyed by the identity of the plan: at least one, one poll
    interval apart, and no more delays than fit in the create timeout. *)
Theorem create_calls_once_then_only_reads :
  forall plan response w,
    if HasError (resp_Diagnostics (Append response (Get_diags plan))) then
      create plan response w = (Returned (Append response (Get_diags plan)), w)
    else
      match getTagsIn,
            cloudfront.create_Tags
              (snd (ExpandCreate (Get_data plan) zeroCreateVpcOriginInput))
      with
      | _ :: _, None =>
          create plan response w = (Panicked NilPointerDereference, w)
      | _, _ =>
          exists input delays,
            withTags getTagsIn
              (snd (ExpandCreate (Get_data plan) zeroCreateVpcOriginInput)) w
            = (Returned input, w)
            /\ (delays
                <= delaysWithin PollInterval
                     (CreateTimeout (Timeouts (Get_data plan))))%nat
            /\ snd (create plan response w)
               = {| calls :=
                      repeat (statusCall (ValueString (Id (Get_data plan))))
                        (S delays)
                        ++ CallCreateVpcOrigin input :: calls w;
                    clock :=
                      clock w + Z.of_nat delays * Z.pos PollInterval |}
      end.
Proof.
  intros plan response w.
  destruct (HasError (resp_Diagnostics (Append response (Get_diags plan))))
    eqn:Hdec.
  - unfold Create. rewrite Hdec. reflexivity.
  - destruct (ExpandCreate (Get_data plan) zeroCreateVpcOriginInput)
      as [diags input0] eqn:Hexp.
    cbn [snd].
    assert (Hgo : forall input,
               withTags getTagsIn input0 w = (Returned input, w) ->
               exists input' delays,
                 withTags getTagsIn input0 w = (Returned input', w)
                 /\ (delays
                     <= delaysWithin PollInterval
                          (CreateTimeout (Timeouts (Get_data plan))))%nat
                 /\ snd (create plan response w)
                    = {| calls :=
                           repeat
                             (statusCall (ValueString (Id (Get_data plan))))
                             (S delays)
                             ++ CallCreateVpcOrigin input' :: calls w;
                         clock :=
                           clock w + Z.of_nat delays * Z.pos PollInterval |}).
    { intros input Htags.
      rewrite (@Create_world PollInterval conn ExpandCreate getTagsIn
                 CreateTimeout plan response w diags input0 input Hdec Hexp
                 Htags).
      destruct (waitVPCOriginDeployed_reads
                  (ValueString (Id (Get_data plan)))
                  (CreateTimeout (Timeouts (Get_data plan)))
                  (logged (CallCreateVpcOrigin input) w))
        as [delays [Hle Hw]].
      exists input, delays. split; [exact Htags|].
      split; [exact Hle|exact Hw]. }
    destruct getTagsIn as [|t tags] eqn:Htagsin.
    + destruct (cloudfront.create_Tags input0); eapply Hgo; reflexivity.
    + destruct (cloudfront.create_Tags input0) as [ptr|] eqn:Hptr.
      * eapply Hgo. unfold withTags, bind. rewrite Hptr. reflexivity.
      * unfold Create. rewrite Hdec, Hexp.
        unfold bind at 1. unfold withTags.
        unfold bind at 1. rewrite Hptr. reflexivity.
Qed.

(** X2. Update whose state or plan does not decode, or whose input does not
    expand, returns with an error diagnostic, the state of the response
    untouched and no remote call made. Otherwise it makes exactly one
    [UpdateVpcOrigin] call, then only status reads keyed by the identity
    held in the state: at least one, one poll interval apart, and no more
    delays than fit in the update timeout. *)
Theorem update_calls_once_then_only_reads :
  forall state plan response w,
    let input0 :=
      {| cloudfront.update_Id :=
           aws_String (ValueString (Id (Get_data plan)));
         cloudfront.update_IfMatch :=
           aws_String (ValueString (ETag (Get_data state)));
         cloudfront.update_Config := None |} in
    let expanded := ExpandUpdate (Get_data plan) input0 in
    if HasError
         (resp_Diagnostics
            (Append
               (Append (Append response (Get_diags state)) (Get_diags plan))
               (fst expanded)))
    then
      exists response',
        update state plan response w = (Returned response', w)
        /\ resp_State response' = resp_State response
        /\ HasError (resp_Diagnostics response') = true
    else
      exists delays,
        (delays
         <= delaysWithin PollInterval
              (UpdateTimeout (Timeouts (Get_data state))))%nat
        /\ snd (update state plan response w)
           = {| calls :=
                  repeat (statusCall (ValueString (Id (Get_data state))))
                    (S delays)
                    ++ CallUpdateVpcOrigin (snd expanded) :: calls w;
                clock := clock w + Z.of_nat delays * Z.pos PollInterval |}.
Proof.
  intros state plan response w input0 expanded.
  destruct (HasError _) eqn:Hdec3.
  - unfold Update.
    destruct (HasError (resp_Diagnostics (Append response (Get_diags state))))
      eqn:Hdec1.
    { eexists. split; [reflexivity|]. split; [reflexivity|exact Hdec1]. }
    destruct (HasError
                (resp_Diagnostics
                   (Append (Append response (Get_diags state))
                      (Get_diags plan)))) eqn:Hdec2.
    { eexists. split; [reflexivity|]. split; [reflexivity|exact Hdec2]. }
    fold input0. fold expanded.
    destruct expanded as [diags input]. cbn [fst] in Hdec3. rewrite Hdec3.
    eexists. split; [reflexivity|]. split; [reflexivity|exact Hdec3].
  - subst expanded.
    destruct (ExpandUpdate (Get_data plan) input0) as [diags input] eqn:Hexp.
    cbn [fst snd] in *.
    rewrite (@Update_world PollInterval conn ExpandUpdate UpdateTimeout
               state plan response w diags input Hdec3 Hexp).
    destruct (waitVPCOriginDeployed_reads (ValueString (Id (Get_data state)))
                (UpdateTimeout (Timeouts (Get_data state)))
                (logged (CallUpdateVpcOrigin input) w))
      as [delays [Hle Hw]].
    exists delays. split; [exact Hle|exact Hw].
Qed.

(** X3. Delete with a state that does not decode returns the diagnostics
    and makes no remote call. Otherwise it makes exactly one
    [DeleteVpcOrigin] call, keyed by the identity of the state and carrying
    its ETag, then only status reads keyed by that identity: at least one,
    one poll interval apart, and no more delays than fit in the delete
    timeout. *)
Theorem delete_calls_once_then_only_reads :
  forall state response w,
    if HasError (resp_Diagnostics (Append response (Get_diags state))) then
      delete state response w
      = (Returned (Append response (Get_diags state)), w)
    else
      exists delays,
        (delays
         <= delaysWithin PollInterval
              (DeleteTimeout (Timeouts (Get_data state))))%nat
        /\ snd (delete state response w)
           = {| calls :=
                  repeat (statusCall (ValueString (Id (Get_data state))))
                    (S delays)
                    ++ CallDeleteVpcOrigin
                         {| cloudfront.delete_Id :=
                              Some (ValueString (Id (Get_data state)));
                            cloudfront.delete_IfMatch :=
                              Some (ValueString (ETag (Get_data state))) |}
                    :: calls w;
                clock := clock w + Z.of_nat delays * Z.pos PollInterval |}.
Proof.
  intros state response w.
  destruct (HasError (resp_Diagnostics (Append response (Get_diags state))))
    eqn:Hdec.
  - unfold Delete. rewrite Hdec. reflexivity.
  - rewrite (@Delete_world PollInterval conn DeleteTimeout state response w
               Hdec).
    match goal with
    | |- context [waitVPCOriginDeleted _ _ ?i ?t ?x] =>
        destruct (waitVPCOriginDeleted_reads i t x) as [delays [Hle Hw]]
    end.
    exists delays. split; [exact Hle|exact Hw].
Qed.

(** X4. Read never makes a mutating call and never waits: with a state that
    does not decode it returns the diagnostics without any remote call;
    otherwise, whatever it returns and even when it panics, it has made
    exactly one status read, keyed by the identity of the state, and the
    clock has not moved. *)
Theorem read_makes_one_status_read :
  forall state response w,
    if HasError (resp_Diagnostics (Append response (Get_diags state))) then
      read state response w = (Returned (Append response (Get_diags state)), w)
    else
      snd (read state response w)
      = logged (statusCall (ValueString (Id (Get_data state)))) w.
Proof.
  intros state response w.
  destruct (HasError (resp_Diagnostics (Append response (Get_diags state))))
    eqn:Hdec; unfold Read; rewrite Hdec; [reflexivity|].
  unfold bind at 1. unfold GetVpcOrigin.
  destruct (api_GetVpcOrigin conn (calls w) _) as [output err].
  destruct (tfresource_NotFound recognises err) eqn:Hnf.
  - destruct err as [e|]; [reflexivity|discriminate Hnf].
  - destruct err as [e|]; [reflexivity|].
    destruct output as [o|]; [|reflexivity].
    unfold bind at 1. cbn [deref ret].
    destruct (Flatten (cloudfront.got_VpcOrigin o) (Get_data state))
      as [diags data].
    destruct (HasError (resp_Diagnostics
                          (Append (Append response (Get_diags state)) diags)));
      [reflexivity|].
    unfold bind. destruct (cloudfront.got_VpcOrigin o); reflexivity.
Qed.


(** ** Outcomes of the mutating operations *)

(** The create input as [fwflex.Expand] leaves it, before the tag step. *)
Local Abbreviation expandedInput plan :=
  (snd (ExpandCreate (Get_data plan) zeroCreateVpcOriginInput)).

Local Abbreviation updateInput state plan :=
  (snd (ExpandUpdate (Get_data plan)
          {| cloudfront.update_Id :=
               aws_String (ValueString (Id (Get_data plan)));
             cloudfront.update_IfMatch :=
               aws_String (ValueString (ETag (Get_data state)));
             cloudfront.update_Config := None |})).

Local Abbreviation updateDiags state plan :=
  (fst (ExpandUpdate (Get_data plan)
          {| cloudfront.update_Id :=
               aws_String (ValueString (Id (Get_data plan)));
             cloudfront.update_IfMatch :=
               aws_String (ValueString (ETag (Get_data state)));
             cloudfront.update_Config := None |})).

Local Abbreviation deleteInput state :=
  {| cloudfront.delete_Id := aws_String (ValueString (Id (Get_data state)));
     cloudfront.delete_IfMatch :=
       aws_String (ValueString (ETag (Get_data state))) |}.

Local Abbreviation errorDiagnostic summary e :=
  {| diag_severity := SeverityError;
     diag_summary := summary;
     diag_detail := Some e |}.

(** Each mutating operation, once its request is decoded, as a function of
    what the mutating call and the wait returned. *)
Lemma Create_run plan response w input :
  HasError (resp_Diagnostics (Append response (Get_diags plan))) = false ->
  withTags getTagsIn (expandedInput plan) w = (Returned input, w) ->
  create plan response w
  = let response2 :=
      Append (Append response (Get_diags plan))
        (fst (ExpandCreate (Get_data plan) zeroCreateVpcOriginInput)) in
    match deployed (ValueString (Id (Get_data plan)))
            (CreateTimeout (Timeouts (Get_data plan)))
            (logged (CallCreateVpcOrigin input) w) with
    | (Returned (_, Some e), w') =>
        (Returned
           (AddError response2
              (ProblemStandardMessage names_CloudFront
                 ErrActionWaitingForCreation (Literal "VPC Origin")
                 (Id (Get_data plan)) e)
              e),
         w')
    | (Returned (_, None), w') =>
        match fst (api_CreateVpcOrigin conn (calls w) input) with
        | Some o =>
            match cloudfront.created_VpcOrigin o with
            | Some v =>
                (Returned
                   (State_Set response2
                      {| ARN := StringToFramework (awstypes.Arn v);
                         CreatedTime :=
                           TimeToFramework (awstypes.CreatedTime v);
                         Id := StringToFramework (awstypes.Id v);
                         ETag :=
                           StringToFramework (cloudfront.created_ETag o);
                         LastModifiedTime :=
                           TimeToFramework (awstypes.LastModifiedTime v);
                         Status := StringToFramework (awstypes.Status v);
                         VpcOriginEndpointConfig :=
                           VpcOriginEndpointConfig (Get_data plan);
                         Tags := Tags (Get_data plan);
                         Timeouts := Timeouts (Get_data plan) |}),
                 w')
            | None => (Panicked NilPointerDereference, w')
            end
        | None => (Panicked NilPointerDereference, w')
        end
    | (Panicked p, w') => (Panicked p, w')
    end.
Proof.
  intros Hdec Htags. unfold Create. rewrite Hdec.
  destruct (ExpandCreate (Get_data plan) zeroCreateVpcOriginInput)
    as [diags input0].
  cbn [fst snd] in *. unfold bind at 1. rewrite Htags.
  unfold bind at 1. unfold CreateVpcOrigin.
  destruct (api_CreateVpcOrigin conn (calls w) input) as [output cerr].
  unfold bind at 1. cbn [fst].
  destruct (waitVPCOriginDeployed _ _ _ _ _) as [[[object [e|]]|p] w'];
    try reflexivity.
  destruct output as [o|]; [|reflexivity].
  cbn [deref]. unfold bind, ret.
  destruct (cloudfront.created_VpcOrigin o); reflexivity.
Qed.

(** A Create whose tag step panics makes no remote call. *)
Lemma Create_tags_panic plan response w p :
  HasError (resp_Diagnostics (Append response (Get_diags plan))) = false ->
  withTags getTagsIn (expandedInput plan) w = (Panicked p, w) ->
  create plan response w = (Panicked p, w).
Proof.
  intros Hdec Htags. unfold Create. rewrite Hdec.
  destruct (ExpandCreate (Get_data plan) zeroCreateVpcOriginInput)
    as [diags input0].
  cbn [fst snd] in *. unfold bind at 1. rewrite Htags. reflexivity.
Qed.

Lemma Update_run state plan response w :
  HasError
    (resp_Diagnostics
       (Append (Append (Append response (Get_diags state)) (Get_diags plan))
          (updateDiags state plan))) = false ->
  update state plan response w
  = let response3 :=
      Append (Append (Append response (Get_diags state)) (Get_diags plan))
        (updateDiags state plan) in
    match deployed (ValueString (Id (Get_data state)))
            (UpdateTimeout (Timeouts (Get_data state)))
            (logged (CallUpdateVpcOrigin (updateInput state plan)) w) with
    | (Returned (_, Some e), w') =>
        (Returned
           (AddError response3
              (ProblemStandardMessage names_CloudFront
                 ErrActionWaitingForUpdate (Literal "VPC Origin")
                 (Id (Get_data state)) e)
              e),
         w')
    | (Returned (_, None), w') =>
        match fst (api_UpdateVpcOrigin conn (calls w)
                     (updateInput state plan)) with
        | Some o =>
            match cloudfront.updated_VpcOrigin o with
            | Some v =>
                (Returned
                   (State_Set response3
                      {| ARN := ARN (Get_data plan);
                         CreatedTime :=
                           TimeToFramework (awstypes.CreatedTime v);
                         Id := Id (Get_data plan);
                         ETag :=
                           StringToFramework (cloudfront.updated_ETag o);
                         LastModifiedTime :=
                           TimeToFramework (awstypes.LastModifiedTime v);
                         Status := StringToFramework (awstypes.Status v);
                         VpcOriginEndpointConfig :=
                           VpcOriginEndpointConfig (Get_data plan);
                         Tags := Tags (Get_data plan);
                         Timeouts := Timeouts (Get_data plan) |}),
                 w')
            | None => (Panicked NilPointerDereference, w')
            end
        | None => (Panicked NilPointerDereference, w')
        end
    | (Panicked p, w') => (Panicked p, w')
    end.
Proof.
  intros Hdec3.
  pose proof (HasError_Append _ _ Hdec3) as Hdec2.
  pose proof (HasError_Append _ _ Hdec2) as Hdec1.
  unfold Update. rewrite Hdec1, Hdec2.
  destruct (ExpandUpdate (Get_data plan) _) as [diags input].
  cbn [fst snd] in *. rewrite Hdec3.
  unfold bind at 1. unfold UpdateVpcOrigin.
  destruct (api_UpdateVpcOrigin conn (calls w) input) as [output uerr].
  unfold bind at 1. cbn [fst].
  destruct (waitVPCOriginDeployed _ _ _ _ _) as [[[object [e|]]|p] w'];
    try reflexivity.
  destruct output as [o|]; [|reflexivity].
  unfold bind, ret.
  destruct (cloudfront.updated_VpcOrigin o); reflexivity.
Qed.

Lemma Delete_run state response w :
  HasError (resp_Diagnostics (Append response (Get_diags state))) = false ->
  delete state response w
  = match deleted (ValueString (Id (Get_data state)))
            (DeleteTimeout (Timeouts (Get_data state)))
            (logged (CallDeleteVpcOrigin (deleteInput state)) w) with
    | (Returned (_, Some e), w') =>
        (Returned
           (AddError (Append response (Get_diags state))
              (ProblemStandardMessage (Literal "Cloudfront VPC Origin")
                 ErrActionWaitingForDeletion names_AttrStatus
                 (Id (Get_data state)) e)
              e),
         w')
    | (Returned (_, None), w') =>
        (Returned (Append response (Get_diags state)), w')
    | (Panicked p, w') => (Panicked p, w')
    end.
Proof.
  intros Hdec. unfold Delete. rewrite Hdec.
  unfold bind at 1. unfold DeleteVpcOrigin.
  destruct (api_DeleteVpcOrigin conn (calls w) _) as [output derr].
  unfold bind at 1.
  destruct (waitVPCOriginDeleted _ _ _ _ _) as [[[object [e|]]|p] w'];
    reflexivity.
Qed.

(** X5. When the mutating call of a Create, an Update or a Delete has been
    reached and the wait that follows ends with an error, the operation
    returns (it does not panic, whatever the mutating call returned), the
    state of the response is left as it was, and
    exactly one diagnostic is added after those of decoding and expanding:
    an error naming the action and the identity and carrying the wait's
    error. *)
Theorem failed_wait_is_reported_and_state_kept :
  (forall plan response w input object e w',
      HasError (resp_Diagnostics (Append response (Get_diags plan))) = false ->
      withTags getTagsIn (expandedInput plan) w = (Returned input, w) ->
      deployed (ValueString (Id (Get_data plan)))
        (CreateTimeout (Timeouts (Get_data plan)))
        (logged (CallCreateVpcOrigin input) w)
      = (Returned (object, Some e), w') ->
      exists response',
        create plan response w = (Returned response', w')
        /\ resp_State response' = resp_State response
        /\ resp_Diagnostics response'
           = ((resp_Diagnostics response ++ Get_diags plan)
                ++ fst (ExpandCreate (Get_data plan) zeroCreateVpcOriginInput))
               ++ [errorDiagnostic
                     (ProblemStandardMessage names_CloudFront
                        ErrActionWaitingForCreation (Literal "VPC Origin")
                        (Id (Get_data plan)) e)
                     e])
  /\ (forall state plan response w object e w',
         HasError
           (resp_Diagnostics
              (Append
                 (Append (Append response (Get_diags state)) (Get_diags plan))
                 (updateDiags state plan))) = false ->
         deployed (ValueString (Id (Get_data state)))
           (UpdateTimeout (Timeouts (Get_data state)))
           (logged (CallUpdateVpcOrigin (updateInput state plan)) w)
         = (Returned (object, Some e), w') ->
         exists response',
           update state plan response w = (Returned response', w')
           /\ resp_State response' = resp_State response
           /\ resp_Diagnostics response'
              = (((resp_Diagnostics response ++ Get_diags state)
                    ++ Get_diags plan)
                   ++ updateDiags state plan)
                  ++ [errorDiagnostic
                        (ProblemStandardMessage names_CloudFront
                           ErrActionWaitingForUpdate (Literal "VPC Origin")
                           (Id (Get_data state)) e)
                        e])
  /\ (forall state response w object e w',
         HasError (resp_Diagnostics (Append response (Get_diags state)))
         = false ->
         deleted (ValueString (Id (Get_data state)))
           (DeleteTimeout (Timeouts (Get_data state)))
           (logged (CallDeleteVpcOrigin (deleteInput state)) w)
         = (Returned (object, Some e), w') ->
         exists response',
           delete state response w = (Returned response', w')
           /\ resp_State response' = resp_State response
           /\ resp_Diagnostics response'
              = (resp_Diagnostics response ++ Get_diags state)
                  ++ [errorDiagnostic
                        (ProblemStandardMessage
                           (Literal "Cloudfront VPC Origin")
                           ErrActionWaitingForDeletion names_AttrStatus
                           (Id (Get_data state)) e)
                        e]).
Proof.
  split; [|split].
  - intros plan response w input object e w' Hdec Htags Hwait.
    rewrite (@Create_run plan response w input Hdec Htags), Hwait.
    eexists. split; [reflexivity|]. split; reflexivity.
  - intros state plan response w object e w' Hdec Hwait.
    rewrite (Update_run state plan response w Hdec), Hwait.
    eexists. split; [reflexivity|]. split; reflexivity.
  - intros state response w object e w' Hdec Hwait.
    rewrite (Delete_run state response w Hdec), Hwait.
    eexists. split; [reflexivity|]. split; reflexivity.
Qed.

(** X6. Once its mutating call has been reached and the wait that follows
    has succeeded, Create panics on a nil pointer exactly when the create
    call returned no output or an output without its origin, and Update
    panics exactly when the update call did; in every other case the
    operation returns a response whose state has been written. *)
Theorem successful_wait_panics_iff_no_origin :
  (forall plan response w input object w',
      HasError (resp_Diagnostics (Append response (Get_diags plan))) = false ->
      withTags getTagsIn (expandedInput plan) w = (Returned input, w) ->
      deployed (ValueString (Id (Get_data plan)))
        (CreateTimeout (Timeouts (Get_data plan)))
        (logged (CallCreateVpcOrigin input) w)
      = (Returned (object, None), w') ->
      let output := fst (api_CreateVpcOrigin conn (calls w) input) in
      match output with
      | Some {| cloudfront.created_VpcOrigin := Some _ |} =>
          exists response' data,
            create plan response w = (Returned response', w')
            /\ resp_State response' = Some data
      | _ => create plan response w = (Panicked NilPointerDereference, w')
      end)
  /\ (forall state plan response w object w',
         HasError
           (resp_Diagnostics
              (Append
                 (Append (Append response (Get_diags state)) (Get_diags plan))
                 (updateDiags state plan))) = false ->
         deployed (ValueString (Id (Get_data state)))
           (UpdateTimeout (Timeouts (Get_data state)))
           (logged (CallUpdateVpcOrigin (updateInput state plan)) w)
         = (Returned (object, None), w') ->
         let output :=
           fst (api_UpdateVpcOrigin conn (calls w) (updateInput state plan)) in
         match output with
         | Some {| cloudfront.updated_VpcOrigin := Some _ |} =>
             exists response' data,
               update state plan response w = (Returned response', w')
               /\ resp_State response' = Some data
         | _ =>
             update state plan response w
             = (Panicked NilPointerDereference, w')
         end).
Proof.
  split.
  - intros plan response w input object w' Hdec Htags Hwait. cbv zeta.
    rewrite (@Create_run plan response w input Hdec Htags), Hwait.
    destruct (fst (api_CreateVpcOrigin conn (calls w) _)) as [[etag [v|]]|];
      try reflexivity.
    do 2 eexists. split; reflexivity.
  - intros state plan response w object w' Hdec Hwait. cbv zeta.
    rewrite (Update_run state plan response w Hdec), Hwait.
    destruct (fst (api_UpdateVpcOrigin conn (calls w) _)) as [[etag [v|]]|];
      try reflexivity.
    do 2 eexists. split; reflexivity.
Qed.


(** ** The prober and the lookup *)

(** A probe, by the answer of the remote read. *)
Lemma VPCOriginStatus_cases id w :
  VPCOriginStatus conn id w
  = (match api_GetVpcOrigin conn (calls w) (statusRead id) with
     | (output, err) =>
         if IsA_EntityNotFound err then Returned (any_nil, EmptyString, None)
         else
           match err, output with
           | Some e, _ => Returned (any_nil, EmptyString, Some e)
           | None, None => Returned (any_nil, EmptyString, None)
           | None, Some o =>
               match cloudfront.got_VpcOrigin o with
               | Some v =>
                   Returned
                     (any_GetVpcOriginOutput o,
                      aws_ToString (awstypes.Status v), None)
               | None => Panicked NilPointerDereference
               end
           end
     end,
     logged (statusCall id) w).
Proof.
  unfold VPCOriginStatus, bind, GetVpcOrigin.
  destruct (api_GetVpcOrigin conn (calls w) (statusRead id)) as [output err].
  destruct (IsA_EntityNotFound err); [reflexivity|].
  destruct err as [e|]; [reflexivity|].
  destruct output as [o|]; [|reflexivity].
  cbn. destruct (cloudfront.got_VpcOrigin o); reflexivity.
Qed.

(** X7. What [VPCOriginStatus] returns is one of three shapes: an error
    with a nil object and an empty status, and then the error is the one of
    the remote read and is not of the [EntityNotFound] class; a nil object
    with an empty status and no error; or the output of the remote read
    with the status of its origin and no error. In each case exactly one
    status read has been made. *)
Theorem VPCOriginStatus_shapes :
  forall id w object status err w',
    VPCOriginStatus conn id w = (Returned (object, status, err), w') ->
    w' = logged (statusCall id) w
    /\ match err with
       | Some e =>
           object = any_nil /\ status = EmptyString
           /\ snd (api_GetVpcOrigin conn (calls w) (statusRead id)) = Some e
           /\ IsA_EntityNotFound (Some e) = false
       | None =>
           match object with
           | any_nil => status = EmptyString
           | any_GetVpcOriginOutput o =>
               api_GetVpcOrigin conn (calls w) (statusRead id)
               = (Some o, None)
               /\ exists v,
                   cloudfront.got_VpcOrigin o = Some v
                   /\ status = aws_ToString (awstypes.Status v)
           | any_VpcOrigin _ => False
           end
       end.
Proof.
  intros id w object status err w'. rewrite VPCOriginStatus_cases.
  destruct (api_GetVpcOrigin conn (calls w) (statusRead id)) as [output e].
  destruct (IsA_EntityNotFound e) eqn:Hclass.
  - intros H. inversion H; subst. split; reflexivity.
  - destruct e as [e|].
    + intros H. inversion H; subst. repeat split; assumption.
    + destruct output as [o|].
      * destruct (cloudfront.got_VpcOrigin o) as [v|] eqn:Hv;
          intros H; inversion H; subst.
        split; [reflexivity|]. split; [reflexivity|].
        exists v. split; [exact Hv|reflexivity].
      * intros H. inversion H; subst. split; reflexivity.
Qed.

(** X8. [findVPCOriginByID] never panics, makes exactly one status read,
    and returns either an output that has its origin, with no error, or no
    output with an error: the error of the remote read (an
    [EntityNotFound] error included, which it does not turn into a signal),
    or an empty-result error when the read gave no output or no origin. It
    never returns neither, nor both. *)
Theorem findVPCOriginByID_output_xor_error :
  forall id w,
    let answer := api_GetVpcOrigin conn (calls w) (statusRead id) in
    exists output err,
      findVPCOriginByID conn id w
      = (Returned (output, err), logged (statusCall id) w)
      /\ match output, err with
         | Some o, None =>
             answer = (Some o, None) /\ cloudfront.got_VpcOrigin o <> None
         | None, Some e =>
             snd answer = Some e
             \/ (e = EmptyResultError
                 /\ snd answer = None
                 /\ match fst answer with
                    | Some o => cloudfront.got_VpcOrigin o = None
                    | None => True
                    end)
         | _, _ => False
         end.
Proof.
  intros id w answer. subst answer.
  unfold findVPCOriginByID, bind, GetVpcOrigin, aws_String.
  change {| cloudfront.get_Id := Some id |} with (statusRead id).
  destruct (api_GetVpcOrigin conn (calls w) (statusRead id))
    as [output [e|]].
  - exists None, (Some e). split; [reflexivity|]. left. reflexivity.
  - destruct output as [o|].
    + destruct (cloudfront.got_VpcOrigin o) as [v|] eqn:Hv.
      * exists (Some o), None. split; [reflexivity|].
        split; [reflexivity|]. rewrite Hv. discriminate.
      * exists None, (Some EmptyResultError). split; [reflexivity|].
        right. repeat split. exact Hv.
    + exists None, (Some EmptyResultError). split; [reflexivity|].
      right. repeat split.
Qed.

(** X9. A remote read that gives neither an output nor an error is read by
    [VPCOriginStatus] as the resource being gone: the delete-wait succeeds
    on it and the deployed-wait ends with [NotFoundError], each after that
    single read. Read has no such guard and panics on the same answer. *)
Theorem nil_output_without_error :
  forall id w,
    api_GetVpcOrigin conn (calls w) (statusRead id) = (None, None) ->
    VPCOriginStatus conn id w
    = (Returned (any_nil, EmptyString, None), logged (statusCall id) w)
    /\ (forall timeout,
           deleted id timeout w
           = (Returned (None, None), logged (statusCall id) w))
    /\ (forall timeout,
           deployed id timeout w
           = (Returned (None, Some NotFoundError), logged (statusCall id) w))
    /\ (forall state response,
           ValueString (Id (Get_data state)) = id ->
           HasError (resp_Diagnostics (Append response (Get_diags state)))
           = false ->
           read state response w
           = (Panicked NilPointerDereference, logged (statusCall id) w)).
Proof.
  intros id w Hread.
  assert (Hprobe : VPCOriginStatus conn id w
                   = (Returned (any_nil, EmptyString, None),
                      logged (statusCall id) w)).
  { unfold VPCOriginStatus, bind, GetVpcOrigin. rewrite Hread. reflexivity. }
  split; [exact Hprobe|]. split; [|split].
  - intros timeout. rewrite waitVPCOriginDeleted_engine.
    unfold WaitForStateContext. rewrite pollLoop_round.
    cbn [Refresh Pending Target]. rewrite Hprobe. reflexivity.
  - intros timeout. rewrite waitVPCOriginDeployed_engine.
    unfold WaitForStateContext. rewrite pollLoop_round.
    cbn [Refresh Pending Target]. rewrite Hprobe. reflexivity.
  - intros state response Hid Hdec.
    unfold Read. rewrite Hdec, Hid.
    unfold bind at 1. unfold GetVpcOrigin, aws_String.
    change {| cloudfront.get_Id := Some id |} with (statusRead id).
    rewrite Hread. reflexivity.
Qed.

(** X10. Neither wait ever returns an object: in every run that returns,
    the first result of [waitVPCOriginDeployed] and of
    [waitVPCOriginDeleted] is nil, because the object the prober hands to
    the engine is a [*cloudfront.GetVpcOriginOutput] and the waits assert a
    [*awstypes.VpcOrigin]. *)
Theorem waits_return_no_object :
  forall id timeout w object err w',
    waitVPCOriginDeployed PollInterval conn id timeout w
    = (Returned (object, err), w')
    \/ waitVPCOriginDeleted PollInterval conn id timeout w
       = (Returned (object, err), w') ->
    object = None.
Proof.
  intros id timeout w object err w' [H|H];
    [rewrite waitVPCOriginDeployed_engine in H
    |rewrite waitVPCOriginDeleted_engine in H];
    unfold WaitForStateContext in H;
    match type of H with
    | context [pollLoop ?i ?c ?n ?l ?s ?x] =>
        pose proof (@pollLoop_object i conn c id eq_refl n l s x) as Hobject;
        destruct (pollLoop i c n l s x) as [[[raw e]|p] w1]
    end; try discriminate;
    inversion H; subst;
    rewrite (Hobject raw err w' eq_refl eq_refl); reflexivity.
Qed.


(** ** Read, and what later operations do with the state *)

(** A Read whose remote read returned an output and no error. *)
Lemma Read_run state response w o :
  HasError (resp_Diagnostics (Append response (Get_diags state))) = false ->
  api_GetVpcOrigin conn (calls w)
    (statusRead (ValueString (Id (Get_data state)))) = (Some o, None) ->
  read state response w
  = (let '(diags, data) :=
       Flatten (cloudfront.got_VpcOrigin o) (Get_data state) in
     let response2 := Append (Append response (Get_diags state)) diags in
     if HasError (resp_Diagnostics response2) then Returned response2
     else
       match cloudfront.got_VpcOrigin o with
       | Some v =>
           Returned
             (State_Set response2
                {| ARN := StringToFramework (awstypes.Arn v);
                   CreatedTime := TimeToFramework (awstypes.CreatedTime v);
                   Id := StringToFramework (awstypes.Id v);
                   ETag := StringToFramework (cloudfront.got_ETag o);
                   LastModifiedTime :=
                     TimeToFramework (awstypes.LastModifiedTime v);
                   Status := StringToFramework (awstypes.Status v);
                   VpcOriginEndpointConfig := VpcOriginEndpointConfig data;
                   Tags := Tags data;
                   Timeouts := Timeouts data |})
       | None => Panicked NilPointerDereference
       end,
     logged (statusCall (ValueString (Id (Get_data state)))) w).
Proof.
  intros Hdec Hread.
  unfold Read. rewrite Hdec.
  unfold bind at 1. unfold GetVpcOrigin, aws_String.
  change {| cloudfront.get_Id := Some (ValueString (Id (Get_data state))) |}
    with (statusRead (ValueString (Id (Get_data state)))).
  rewrite Hread. cbn [tfresource_NotFound].
  unfold bind at 1. cbn [deref ret].
  destruct (Flatten (cloudfront.got_VpcOrigin o) (Get_data state))
    as [diags data].
  destruct (HasError
              (resp_Diagnostics
                 (Append (Append response (Get_diags state)) diags)));
    [reflexivity|].
  unfold bind. destruct (cloudfront.got_VpcOrigin o); reflexivity.
Qed.

(** X11. A Read whose remote read returns an output with its origin and no
    error, and whose flattening reports no error, writes the state: ARN,
    identity, timestamps and status are those of the origin read, the ETag
    is the one of the output, and the remaining attributes are as
    [fwflex.Flatten] left them. One status read has been made. *)
Theorem read_refreshes_the_state :
  forall state response w o v diags data,
    HasError (resp_Diagnostics (Append response (Get_diags state))) = false ->
    api_GetVpcOrigin conn (calls w)
      (statusRead (ValueString (Id (Get_data state)))) = (Some o, None) ->
    cloudfront.got_VpcOrigin o = Some v ->
    Flatten (Some v) (Get_data state) = (diags, data) ->
    HasError
      (resp_Diagnostics (Append (Append response (Get_diags state)) diags))
    = false ->
    read state response w
    = (Returned
         (State_Set (Append (Append response (Get_diags state)) diags)
            {| ARN := StringToFramework (awstypes.Arn v);
               CreatedTime := TimeToFramework (awstypes.CreatedTime v);
               Id := StringToFramework (awstypes.Id v);
               ETag := StringToFramework (cloudfront.got_ETag o);
               LastModifiedTime :=
                 TimeToFramework (awstypes.LastModifiedTime v);
               Status := StringToFramework (awstypes.Status v);
               VpcOriginEndpointConfig := VpcOriginEndpointConfig data;
               Tags := Tags data;
               Timeouts := Timeouts data |}),
       logged (statusCall (ValueString (Id (Get_data state)))) w).
Proof.
  intros state response w o v diags data Hdec Hread Hv Hflat Hdec2.
  rewrite (Read_run state response w Hdec Hread).
  rewrite Hv, Hflat. cbv zeta. rewrite Hdec2. reflexivity.
Qed.

Lemma ValueString_StringToFramework p :
  ValueString (StringToFramework p) = aws_ToString p.
Proof. destruct p; reflexivity. Qed.

(** X12. The state written by a Create that reached its create call and
    whose wait succeeded, and the state written by a successful Read, key
    the next Delete by the identity the remote gave: run on that state, Delete sends one [DeleteVpcOrigin] call with
    that identity and, as [IfMatch], the ETag the remote returned, and then
    only status reads keyed by that identity. *)
Theorem delete_is_keyed_by_the_identity_received :
  (forall plan response w input object w1 o v,
      HasError (resp_Diagnostics (Append response (Get_diags plan))) = false ->
      withTags getTagsIn (expandedInput plan) w = (Returned input, w) ->
      deployed (ValueString (Id (Get_data plan)))
        (CreateTimeout (Timeouts (Get_data plan)))
        (logged (CallCreateVpcOrigin input) w)
      = (Returned (object, None), w1) ->
      fst (api_CreateVpcOrigin conn (calls w) input) = Some o ->
      cloudfront.created_VpcOrigin o = Some v ->
      exists response1 st,
        create plan response w = (Returned response1, w1)
        /\ resp_State response1 = Some st
        /\ forall response2,
            HasError (resp_Diagnostics response2) = false ->
            exists delays,
              snd (delete {| Get_diags := []; Get_data := st |} response2 w1)
              = {| calls :=
                     repeat (statusCall (aws_ToString (awstypes.Id v)))
                       (S delays)
                       ++ CallDeleteVpcOrigin
                            {| cloudfront.delete_Id :=
                                 Some (aws_ToString (awstypes.Id v));
                               cloudfront.delete_IfMatch :=
                                 Some
                                   (aws_ToString (cloudfront.created_ETag o))
                            |}
                       :: calls w1;
                   clock :=
                     clock w1 + Z.of_nat delays * Z.pos PollInterval |})
  /\ (forall state response w o v diags data,
         HasError (resp_Diagnostics (Append response (Get_diags state)))
         = false ->
         api_GetVpcOrigin conn (calls w)
           (statusRead (ValueString (Id (Get_data state)))) = (Some o, None) ->
         cloudfront.got_VpcOrigin o = Some v ->
         Flatten (Some v) (Get_data state) = (diags, data) ->
         HasError
           (resp_Diagnostics
              (Append (Append response (Get_diags state)) diags)) = false ->
         exists response1 st w1,
           read state response w = (Returned response1, w1)
           /\ resp_State response1 = Some st
           /\ forall response2,
               HasError (resp_Diagnostics response2) = false ->
               exists delays,
                 snd (delete {| Get_diags := []; Get_data := st |}
                        response2 w1)
                 = {| calls :=
                        repeat (statusCall (aws_ToString (awstypes.Id v)))
                          (S delays)
                          ++ CallDeleteVpcOrigin
                               {| cloudfront.delete_Id :=
                                    Some (aws_ToString (awstypes.Id v));
                                  cloudfront.delete_IfMatch :=
                                    Some
                                      (aws_ToString (cloudfront.got_ETag o))
                               |}
                          :: calls w1;
                      clock :=
                        clock w1 + Z.of_nat delays * Z.pos PollInterval |}).
Proof.
  assert (Hdelete : forall st pid petag response2 w1,
             Id st = StringToFramework pid ->
             ETag st = StringToFramework petag ->
             HasError (resp_Diagnostics response2) = false ->
             exists delays,
               snd (delete {| Get_diags := []; Get_data := st |} response2 w1)
               = {| calls :=
                      repeat (statusCall (aws_ToString pid)) (S delays)
                        ++ CallDeleteVpcOrigin
                             {| cloudfront.delete_Id :=
                                  Some (aws_ToString pid);
                                cloudfront.delete_IfMatch :=
                                  Some (aws_ToString petag) |}
                        :: calls w1;
                    clock :=
                      clock w1 + Z.of_nat delays * Z.pos PollInterval |}).
  { intros st pid petag response2 w1 Hid Hetag Hok.
    assert (Hdec : HasError
                     (resp_Diagnostics
                        (Append response2
                           (Get_diags {| Get_diags := []; Get_data := st |})))
                   = false).
    { unfold Append. cbn. rewrite app_nil_r. exact Hok. }
    rewrite (@Delete_world PollInterval conn DeleteTimeout _ response2 w1
               Hdec).
    cbn [Get_data]. rewrite Hid, Hetag, !ValueString_StringToFramework.
    match goal with
    | |- context [waitVPCOriginDeleted _ _ ?i ?t ?x] =>
        destruct (waitVPCOriginDeleted_reads i t x) as [delays [_ Hw]]
    end.
    exists delays. exact Hw. }
  split.
  - intros plan response w input object w1 o v Hdec Htags Hwait Ho Hv.
    rewrite (@Create_run plan response w input Hdec Htags), Hwait, Ho, Hv.
    do 2 eexists. split; [reflexivity|]. split; [reflexivity|].
    intros response2 Hok.
    apply (Hdelete _ (awstypes.Id v) (cloudfront.created_ETag o));
      [reflexivity|reflexivity|exact Hok].
  - intros state response w o v diags data Hdec Hread Hv Hflat Hdec2.
    rewrite (Read_run state response w Hdec Hread).
    rewrite Hv, Hflat. cbv zeta. rewrite Hdec2.
    do 3 eexists. split; [reflexivity|]. split; [reflexivity|].
    intros response2 Hok.
    apply (Hdelete _ (awstypes.Id v) (cloudfront.got_ETag o));
      [reflexivity|reflexivity|exact Hok].
Qed.


(** ** What a successful wait has seen *)

Lemma inb_singleton s t : inb s [t] = true -> s = t.
Proof.
  unfold inb. cbn. rewrite orb_false_r. apply String.eqb_eq.
Qed.

(** A loop that resolves without error has, as its last call, a status
    read whose answer either matched the target set or, the target set
    being empty, told that the resource is gone. *)
Lemma pollLoop_success conf id :
  Refresh conf = VPCOriginStatus conn id ->
  forall remaining last lastStatus w object w',
    pollLoop PollInterval conf remaining last lastStatus w
    = (Returned (object, None), w') ->
    exists past,
      calls w' = statusCall id :: past
      /\ match api_GetVpcOrigin conn past (statusRead id) with
         | (output, err) =>
             if IsA_EntityNotFound err then Target conf = []
             else
               match err, output with
               | Some _, _ => False
               | None, None => Target conf = []
               | None, Some o =>
                   match cloudfront.got_VpcOrigin o with
                   | Some v =>
                       inb (aws_ToString (awstypes.Status v)) (Target conf)
                       = true
                   | None => False
                   end
               end
         end.
Proof.
  intros Hprober.
  induction remaining as [|n IH]; intros last lastStatus w object w';
    rewrite pollLoop_round, Hprober, VPCOriginStatus_cases;
    destruct (api_GetVpcOrigin conn (calls w) (statusRead id))
      as [output err] eqn:Hread;
    (destruct (IsA_EntityNotFound err) eqn:Hclass;
     [cbn [probeResult decide];
      destruct (Target conf) eqn:Htarget; intros H; inversion H; subst;
      exists (calls w); split; [reflexivity|];
      rewrite Hread, Hclass; reflexivity
     |]);
    (destruct err as [e|];
     [cbn [probeResult decide]; destruct (nonRetryable e);
      [intros H; discriminate H|]
     |destruct output as [o|];
      [destruct (cloudfront.got_VpcOrigin o) as [v|] eqn:Hv;
       [cbn [probeResult decide];
        destruct (inb (aws_ToString (awstypes.Status v)) (Target conf))
          eqn:Hin;
        [intros H; inversion H; subst; exists (calls w);
         split; [reflexivity|]; rewrite Hread, Hclass, Hv; exact Hin
        |destruct (inb (aws_ToString (awstypes.Status v)) (Pending conf));
         [|intros H; discriminate H]]
       |intros H; discriminate H]
      |cbn [probeResult decide];
       destruct (Target conf) eqn:Htarget; intros H; inversion H; subst;
       exists (calls w); split; [reflexivity|];
       rewrite Hread, Hclass; reflexivity]]);
    try (intros H; discriminate H);
    apply IH.
Qed.

(** X13. When [waitVPCOriginDeployed] returns without error, its last
    call was a status read, keyed by the identity it was given, that
    returned an output whose origin has the status "Deployed". *)
Theorem deployed_wait_success_has_seen_deployed :
  forall id timeout w object w',
    waitVPCOriginDeployed PollInterval conn id timeout w
    = (Returned (object, None), w') ->
    exists past o v,
      calls w' = statusCall id :: past
      /\ api_GetVpcOrigin conn past (statusRead id) = (Some o, None)
      /\ cloudfront.got_VpcOrigin o = Some v
      /\ awstypes.Status v = Some "Deployed".
Proof.
  intros id timeout w object w' H.
  rewrite waitVPCOriginDeployed_engine in H. unfold WaitForStateContext in H.
  match type of H with
  | context [pollLoop ?i ?c ?n ?l ?s ?x] =>
      pose proof (@pollLoop_success c id eq_refl n l s x) as Hsuccess;
      destruct (pollLoop i c n l s x) as [[[raw err]|p] w1]
  end; [|discriminate].
  inversion H; subst.
  destruct (Hsuccess raw w' eq_refl) as [past [Hcalls Hlast]].
  cbn [Target] in Hlast.
  exists past.
  destruct (api_GetVpcOrigin conn past (statusRead id)) as [output e].
  destruct (IsA_EntityNotFound e); [discriminate Hlast|].
  destruct e as [e|]; [contradiction|].
  destruct output as [o|]; [|discriminate Hlast].
  destruct (cloudfront.got_VpcOrigin o) as [v|] eqn:Hv; [|contradiction].
  apply inb_singleton in Hlast.
  exists o, v. repeat split; try assumption.
  destruct (awstypes.Status v) as [s|]; cbn in Hlast;
    [rewrite Hlast; reflexivity|discriminate Hlast].
Qed.

(** X14. When [waitVPCOriginDeleted] returns without error, its last call
    was a status read, keyed by the identity it was given, that failed
    with the [EntityNotFound] class or returned neither output nor
    error. *)
Theorem deleted_wait_success_has_seen_it_gone :
  forall id timeout w object w',
    waitVPCOriginDeleted PollInterval conn id timeout w
    = (Returned (object, None), w') ->
    exists past,
      calls w' = statusCall id :: past
      /\ (IsA_EntityNotFound
            (snd (api_GetVpcOrigin conn past (statusRead id))) = true
          \/ api_GetVpcOrigin conn past (statusRead id) = (None, None)).
Proof.
  intros id timeout w object w' H.
  rewrite waitVPCOriginDeleted_engine in H. unfold WaitForStateContext in H.
  match type of H with
  | context [pollLoop ?i ?c ?n ?l ?s ?x] =>
      pose proof (@pollLoop_success c id eq_refl n l s x) as Hsuccess;
      destruct (pollLoop i c n l s x) as [[[raw err]|p] w1]
  end; [|discriminate].
  inversion H; subst.
  destruct (Hsuccess raw w' eq_refl) as [past [Hcalls Hlast]].
  cbn [Target] in Hlast.
  exists past. split; [exact Hcalls|].
  destruct (api_GetVpcOrigin conn past (statusRead id)) as [output e].
  cbn [snd].
  destruct (IsA_EntityNotFound e); [left; reflexivity|].
  destruct e as [e|]; [contradiction|].
  destruct output as [o|]; [|right; reflexivity].
  destruct (cloudfront.got_VpcOrigin o) as [v|]; [|contradiction].
  discriminate Hlast.
Qed.

End Coverage.

(** ** The error of the mutating call *)

Section Masking.

Variable PollInterval : positive.
Variables conn1 conn2 : Client.
Variable ExpandCreate :
  vpcOriginModel -> cloudfront.CreateVpcOriginInput ->
  Diagnostics * cloudfront.CreateVpcOriginInput.
Variable ExpandUpdate :
  vpcOriginModel -> cloudfront.UpdateVpcOriginInput ->
  Diagnostics * cloudfront.UpdateVpcOriginInput.
Variable getTagsIn : list (string * string).
Variable CreateTimeout : timeouts_Value -> Duration.
Variable UpdateTimeout : timeouts_Value -> Duration.
Variable DeleteTimeout : timeouts_Value -> Duration.

(** The two remotes answer every status read alike. *)
Hypothesis same_reads :
  forall past input,
    api_GetVpcOrigin conn1 past input = api_GetVpcOrigin conn2 past input.

Lemma VPCOriginStatus_same id w :
  VPCOriginStatus conn1 id w = VPCOriginStatus conn2 id w.
Proof.
  rewrite !VPCOriginStatus_cases, same_reads. reflexivity.
Qed.

Lemma pollLoop_same pending target id timeout :
  forall remaining last lastStatus w,
    pollLoop PollInterval
      {| Pending := pending; Target := target;
         Refresh := VPCOriginStatus conn1 id; Timeout := timeout |}
      remaining last lastStatus w
    = pollLoop PollInterval
        {| Pending := pending; Target := target;
           Refresh := VPCOriginStatus conn2 id; Timeout := timeout |}
        remaining last lastStatus w.
Proof.
  induction remaining as [|n IH]; intros last lastStatus w;
    rewrite !pollLoop_round; cbn [Refresh Pending Target];
    rewrite VPCOriginStatus_same;
    destruct (VPCOriginStatus conn2 id w) as [[r|p] w1]; try reflexivity;
    destruct (decide _ _ _ _ _); try reflexivity.
  apply IH.
Qed.

Lemma waitVPCOriginDeployed_same id timeout w :
  waitVPCOriginDeployed PollInterval conn1 id timeout w
  = waitVPCOriginDeployed PollInterval conn2 id timeout w.
Proof.
  rewrite !waitVPCOriginDeployed_engine. unfold WaitForStateContext.
  cbn [Timeout]. rewrite pollLoop_same. reflexivity.
Qed.

Lemma waitVPCOriginDeleted_same id timeout w :
  waitVPCOriginDeleted PollInterval conn1 id timeout w
  = waitVPCOriginDeleted PollInterval conn2 id timeout w.
Proof.
  rewrite !waitVPCOriginDeleted_engine. unfold WaitForStateContext.
  cbn [Timeout]. rewrite pollLoop_same. reflexivity.
Qed.

(** X15. The error returned by the mutating call is never looked at. Take
    two remotes that answer every status read alike. Delete gives the same
    result and leaves the same call log on both, whatever their
    [DeleteVpcOrigin] returns. Create and Update give the same result on
    both as soon as their mutating calls return the same outputs, whatever
    errors come with them. *)
Theorem mutating_call_error_is_never_looked_at :
  (forall state response w,
      Delete PollInterval conn1 DeleteTimeout state response w
      = Delete PollInterval conn2 DeleteTimeout state response w)
  /\ ((forall past input,
          fst (api_CreateVpcOrigin conn1 past input)
          = fst (api_CreateVpcOrigin conn2 past input)) ->
      forall plan response w,
        Create PollInterval conn1 ExpandCreate getTagsIn CreateTimeout
          plan response w
        = Create PollInterval conn2 ExpandCreate getTagsIn CreateTimeout
            plan response w)
  /\ ((forall past input,
          fst (api_UpdateVpcOrigin conn1 past input)
          = fst (api_UpdateVpcOrigin conn2 past input)) ->
      forall state plan response w,
        Update PollInterval conn1 ExpandUpdate UpdateTimeout
          state plan response w
        = Update PollInterval conn2 ExpandUpdate UpdateTimeout
            state plan response w).
Proof.
  split; [|split].
  - intros state response w.
    destruct (HasError (resp_Diagnostics (Append response (Get_diags state))))
      eqn:Hdec.
    + unfold Delete. rewrite Hdec. reflexivity.
    + rewrite !(@Delete_run PollInterval _ DeleteTimeout state response w
                  Hdec).
      rewrite waitVPCOriginDeleted_same. reflexivity.
  - intros Hsame plan response w.
    destruct (HasError (resp_Diagnostics (Append response (Get_diags plan))))
      eqn:Hdec.
    + unfold Create. rewrite Hdec. reflexivity.
    + pose proof (withTags_world getTagsIn
                    (snd (ExpandCreate (Get_data plan)
                            zeroCreateVpcOriginInput)) w) as Hw.
      destruct (withTags getTagsIn
                  (snd (ExpandCreate (Get_data plan)
                          zeroCreateVpcOriginInput)) w)
        as [[input|p] w0] eqn:Htags; cbn [snd] in Hw; subst w0.
      * rewrite !(@Create_run PollInterval _ ExpandCreate getTagsIn
                    CreateTimeout plan response w input Hdec Htags).
        rewrite waitVPCOriginDeployed_same, Hsame. reflexivity.
      * rewrite !(@Create_tags_panic PollInterval _ ExpandCreate getTagsIn
                    CreateTimeout plan response w p Hdec Htags).
        reflexivity.
  - intros Hsame state plan response w.
    destruct (HasError
                (resp_Diagnostics
                   (Append
                      (Append (Append response (Get_diags state))
                         (Get_diags plan))
                      (fst (ExpandUpdate (Get_data plan)
                              {| cloudfront.update_Id :=
                                   aws_String
                                     (ValueString (Id (Get_data plan)));
                                 cloudfront.update_IfMatch :=
                                   aws_String
                                     (ValueString (ETag (Get_data state)));
                                 cloudfront.update_Config := None |})))))
      eqn:Hdec.
    + unfold Update.
      destruct (HasError
                  (resp_Diagnostics (Append response (Get_diags state))));
        [reflexivity|].
      destruct (HasError
                  (resp_Diagnostics
                     (Append (Append response (Get_diags state))
                        (Get_diags plan)))); [reflexivity|].
      destruct (ExpandUpdate (Get_data plan) _) as [diags input].
      cbn [fst] in Hdec. rewrite Hdec. reflexivity.
    + rewrite !(@Update_run PollInterval _ ExpandUpdate UpdateTimeout
                  state plan response w Hdec).
      rewrite waitVPCOriginDeployed_same, Hsame. reflexivity.
Qed.

End Masking.

(** * Further runs on concrete remotes *)

(** An Update on the stored origin: the update call is refused and the
    probe reports a status the wait does not expect. *)
Lemma failed_wait_is_reported_and_state_kept_witness :
  HasError
    (resp_Diagnostics
       (Append
          (Append (Append (holding stored) (Get_diags (decoded stored)))
             (Get_diags (decoded stored)))
          []))
  = false
  /\ waitVPCOriginDeployed interval broken "vo_1" (15 * Minute)
       (logged
          (CallUpdateVpcOrigin
             {| cloudfront.update_Id := Some "vo_1";
                cloudfront.update_IfMatch := Some "E1";
                cloudfront.update_Config := None |})
          start)
     = (Returned (None, Some (UnexpectedStateError "Failed" ["Deployed"])),
        logged (CallGetVpcOrigin (statusRead "vo_1"))
          (logged
             (CallUpdateVpcOrigin
                {| cloudfront.update_Id := Some "vo_1";
                   cloudfront.update_IfMatch := Some "E1";
                   cloudfront.update_Config := None |})
             start))
  /\ exists response',
      Update interval broken expandUpdate quarterHour (decoded stored)
        (decoded stored) (holding stored) start
      = (Returned response',
         logged (CallGetVpcOrigin (statusRead "vo_1"))
           (logged
              (CallUpdateVpcOrigin
                 {| cloudfront.update_Id := Some "vo_1";
                    cloudfront.update_IfMatch := Some "E1";
                    cloudfront.update_Config := None |})
              start))
      /\ resp_State response' = Some stored
      /\ resp_Diagnostics response'
         = [{| diag_severity := SeverityError;
               diag_summary :=
                 ProblemStandardMessage names_CloudFront
                   ErrActionWaitingForUpdate (Literal "VPC Origin")
                   (Known "vo_1")
                   (UnexpectedStateError "Failed" ["Deployed"]);
               diag_detail :=
                 Some (UnexpectedStateError "Failed" ["Deployed"]) |}].
Proof.
  repeat (split; [reflexivity|]).
  exact (proj1
           (proj2
              (@failed_wait_is_reported_and_state_kept interval broken
                 expandCreate expandUpdate [] quarterHour quarterHour
                 quarterHour))
           (decoded stored) (decoded stored) (holding stored) start None
           (UnexpectedStateError "Failed" ["Deployed"]) _ eq_refl eq_refl).
Defined.

(** An Update on the stored origin: the update call is refused, with no
    output, and the probe reports the origin deployed. *)
Lemma successful_wait_panics_iff_no_origin_witness :
  HasError
    (resp_Diagnostics
       (Append
          (Append (Append (holding stored) (Get_diags (decoded stored)))
             (Get_diags (decoded stored)))
          []))
  = false
  /\ waitVPCOriginDeployed interval refusing "vo_1" (15 * Minute)
       (logged
          (CallUpdateVpcOrigin
             {| cloudfront.update_Id := Some "vo_1";
                cloudfront.update_IfMatch := Some "E1";
                cloudfront.update_Config := None |})
          start)
     = (Returned (None, None),
        logged (CallGetVpcOrigin (statusRead "vo_1"))
          (logged
             (CallUpdateVpcOrigin
                {| cloudfront.update_Id := Some "vo_1";
                   cloudfront.update_IfMatch := Some "E1";
                   cloudfront.update_Config := None |})
             start))
  /\ Update interval refusing expandUpdate quarterHour (decoded stored)
       (decoded stored) (holding stored) start
     = (Panicked NilPointerDereference,
        logged (CallGetVpcOrigin (statusRead "vo_1"))
          (logged
             (CallUpdateVpcOrigin
                {| cloudfront.update_Id := Some "vo_1";
                   cloudfront.update_IfMatch := Some "E1";
                   cloudfront.update_Config := None |})
             start)).
Proof.
  repeat (split; [reflexivity|]).
  exact (proj2
           (@successful_wait_panics_iff_no_origin interval refusing
              expandCreate expandUpdate [] quarterHour quarterHour)
           (decoded stored) (decoded stored) (holding stored) start None _
           eq_refl eq_refl).
Defined.

Lemma VPCOriginStatus_shapes_witness :
  VPCOriginStatus refusing "vo_1" start
  = (Returned (any_GetVpcOriginOutput (got "E2" "Deployed"), "Deployed", None),
     logged (CallGetVpcOrigin (statusRead "vo_1")) start)
  /\ api_GetVpcOrigin refusing (calls start) (statusRead "vo_1")
     = (Some (got "E2" "Deployed"), None).
Proof.
  split; [reflexivity|].
  exact (proj1
           (proj2
              (@VPCOriginStatus_shapes refusing "vo_1" start
                 (any_GetVpcOriginOutput (got "E2" "Deployed")) "Deployed"
                 None _ eq_refl))).
Defined.

Lemma nil_output_without_error_witness :
  api_GetVpcOrigin mute (calls start) (statusRead "vo_1") = (None, None)
  /\ waitVPCOriginDeleted interval mute "vo_1" (15 * Minute) start
     = (Returned (None, None),
        logged (CallGetVpcOrigin (statusRead "vo_1")) start).
Proof.
  split; [reflexivity|].
  exact (proj1
           (proj2
              (@nil_output_without_error interval mute flatten wrapped
                 "vo_1" start eq_refl))
           (15 * Minute)).
Defined.

Lemma waits_return_no_object_witness :
  waitVPCOriginDeployed interval refusing "vo_1" (15 * Minute) start
  = (Returned (None, None),
     logged (CallGetVpcOrigin (statusRead "vo_1")) start)
  /\ (None : option awstypes.VpcOrigin) = None.
Proof.
  split; [reflexivity|].
  exact (@waits_return_no_object interval refusing "vo_1" (15 * Minute) start
           None None _ (or_introl eq_refl)).
Defined.

Lemma read_refreshes_the_state_witness :
  HasError
    (resp_Diagnostics (Append (holding stored) (Get_diags (decoded stored))))
  = false
  /\ api_GetVpcOrigin refusing (calls start) (statusRead "vo_1")
     = (Some (got "E2" "Deployed"), None)
  /\ Read refusing flatten wrapped (decoded stored) (holding stored) start
     = (Returned
          (holding
             {| ARN := Known "arn:aws:cloudfront::123456789012:vpcorigin/vo_1";
                CreatedTime := Known 1700000000; Id := Known "vo_1";
                ETag := Known "E2";
                LastModifiedTime := Known 1700000000;
                Status := Known "Deployed";
                VpcOriginEndpointConfig := Null; Tags := Null;
                Timeouts := noTimeouts |}),
        logged (CallGetVpcOrigin (statusRead "vo_1")) start).
Proof.
  repeat (split; [reflexivity|]).
  exact (@read_refreshes_the_state refusing flatten wrapped (decoded stored)
           (holding stored) start (got "E2" "Deployed") (origin "Deployed")
           [] stored eq_refl eq_refl eq_refl eq_refl eq_refl).
Defined.

(** A Read of the stored origin, then a Delete on the state it wrote. *)
Lemma delete_is_keyed_by_the_identity_received_witness :
  HasError
    (resp_Diagnostics (Append (holding stored) (Get_diags (decoded stored))))
  = false
  /\ api_GetVpcOrigin refusing (calls start) (statusRead "vo_1")
     = (Some (got "E2" "Deployed"), None)
  /\ exists response1 st w1,
      Read refusing flatten wrapped (decoded stored) (holding stored) start
      = (Returned response1, w1)
      /\ resp_State response1 = Some st
      /\ forall response2,
          HasError (resp_Diagnostics response2) = false ->
          exists delays,
            snd (Delete interval refusing quarterHour
                   {| Get_diags := []; Get_data := st |} response2 w1)
            = {| calls :=
                   repeat (CallGetVpcOrigin (statusRead "vo_1")) (S delays)
                     ++ CallDeleteVpcOrigin
                          {| cloudfront.delete_Id := Some "vo_1";
                             cloudfront.delete_IfMatch := Some "E2" |}
                     :: calls w1;
                 clock := clock w1 + Z.of_nat delays * Z.pos interval |}.
Proof.
  repeat (split; [reflexivity|]).
  exact (proj2
           (@delete_is_keyed_by_the_identity_received interval refusing
              expandCreate flatten wrapped [] quarterHour quarterHour)
           (decoded stored) (holding stored) start (got "E2" "Deployed")
           (origin "Deployed") [] stored eq_refl eq_refl eq_refl eq_refl
           eq_refl).
Defined.

Lemma deployed_wait_success_has_seen_deployed_witness :
  waitVPCOriginDeployed interval refusing "vo_1" (15 * Minute) start
  = (Returned (None, None),
     logged (CallGetVpcOrigin (statusRead "vo_1")) start)
  /\ exists past o v,
      calls (logged (CallGetVpcOrigin (statusRead "vo_1")) start)
      = CallGetVpcOrigin (statusRead "vo_1") :: past
      /\ api_GetVpcOrigin refusing past (statusRead "vo_1") = (Some o, None)
      /\ cloudfront.got_VpcOrigin o = Some v
      /\ awstypes.Status v = Some "Deployed".
Proof.
  split; [reflexivity|].
  exact (@deployed_wait_success_has_seen_deployed interval refusing "vo_1"
           (15 * Minute) start None _ eq_refl).
Defined.

Lemma deleted_wait_success_has_seen_it_gone_witness :
  let conn := reading [] (None, Some gone) in
  waitVPCOriginDeleted interval conn "vo_1" (15 * Minute) start
  = (Returned (None, None),
     logged (CallGetVpcOrigin (statusRead "vo_1")) start)
  /\ exists past,
      calls (logged (CallGetVpcOrigin (statusRead "vo_1")) start)
      = CallGetVpcOrigin (statusRead "vo_1") :: past
      /\ (IsA_EntityNotFound
            (snd (api_GetVpcOrigin conn past (statusRead "vo_1"))) = true
          \/ api_GetVpcOrigin conn past (statusRead "vo_1") = (None, None)).
Proof.
  cbv zeta. split; [reflexivity|].
  exact (@deleted_wait_success_has_seen_it_gone interval
           (reading [] (None, Some gone)) "vo_1" (15 * Minute) start None _
           eq_refl).
Defined.

Lemma mutating_call_error_is_never_looked_at_witness :
  (forall past input,
      api_GetVpcOrigin refusing past input = api_GetVpcOrigin quiet past input)
  /\ api_DeleteVpcOrigin refusing [] 
       {| cloudfront.delete_Id := Some "vo_1";
          cloudfront.delete_IfMatch := Some "E1" |} = (None, Some denied)
  /\ api_DeleteVpcOrigin quiet []
       {| cloudfront.delete_Id := Some "vo_1";
          cloudfront.delete_IfMatch := Some "E1" |} = (None, None)
  /\ Delete interval refusing quarterHour (decoded stored) (holding stored)
       start
     = Delete interval quiet quarterHour (decoded stored) (holding stored)
         start.
Proof.
  split; [intros past input; reflexivity|].
  repeat (split; [reflexivity|]).
  exact (proj1
           (@mutating_call_error_is_never_looked_at interval refusing quiet
              expandCreate expandUpdate [] quarterHour quarterHour
              quarterHour (fun past input => eq_refl))
           (decoded stored) (holding stored) start).
Defined.
